(** * Remote audio acquisition pipeline of TAU-Benchmark

    Shallow embedding of [src/utils.py] (fetch adapters and [crop_audio]),
    [src/process_audio_json.py] and [src/process_audio.py] (the two
    orchestrators and their [timestamp_to_ms]) and the windowing loop of
    [src/sample_and_crop.py].

    Python effects are modelled by a state-and-exception monad over a
    [world]: the local file system, the host's tools, the answers of the
    network libraries (as oracles), and a log of observable actions.  A
    Python exception aborts the computation and keeps the state reached so
    far, as in the interpreter. *)

From Stdlib Require Import ZArith Ascii String List Bool Lia DecimalPos.
From stdpp Require Import base gmap strings list.
Import ListNotations.

Open Scope Z_scope.

(* ------------------------------------------------------------------ *)
(** ** Python strings *)

Module Py.

(** Characters for which [str.isspace] holds (ASCII range); [str.strip()]
    and [int()] skip them. *)
Definition is_space (c : ascii) : bool :=
  let n := nat_of_ascii c in
  (Nat.eqb n 32 || ((9 <=? n)%nat && (n <=? 13)%nat)
   || ((28 <=? n)%nat && (n <=? 31)%nat))%bool.

Fixpoint lstrip (l : list ascii) : list ascii :=
  match l with
  | c :: r => if is_space c then lstrip r else l
  | [] => []
  end.

Definition strip_l (l : list ascii) : list ascii := rev (lstrip (rev (lstrip l))).

(** [s.strip()] *)
Definition strip (s : string) : string :=
  string_of_list_ascii (strip_l (list_ascii_of_string s)).

(** [s.split(c)] for a one-character separator: always at least one part. *)
Fixpoint split_l (c : ascii) (l : list ascii) : list (list ascii) :=
  match l with
  | [] => [[]]
  | x :: r =>
      let parts := split_l c r in
      if Ascii.eqb x c then [] :: parts
      else match parts with
           | p :: ps => (x :: p) :: ps
           | [] => [[x]]
           end
  end.

Definition split (c : ascii) (s : string) : list string :=
  map string_of_list_ascii (split_l c (list_ascii_of_string s)).

(** [needle in hay] for strings. *)
Fixpoint contains_at (needle hay : string) : bool :=
  match hay with
  | EmptyString => String.prefix needle hay
  | String _ r => String.prefix needle hay || contains_at needle r
  end.

Definition contains (needle hay : string) : bool := contains_at needle hay.

(** Python indexing [l[i]] with negative indices; [None] is IndexError. *)
Definition index {A} (l : list A) (i : Z) : option A :=
  let n := Z.of_nat (length l) in
  let j := if i <? 0 then n + i else i in
  if (j <? 0) || (n <=? j) then None else nth_error l (Z.to_nat j).

Definition digit_val (c : ascii) : option Z :=
  let n := nat_of_ascii c in
  if ((48 <=? n)%nat && (n <=? 57)%nat)%bool then Some (Z.of_nat n - 48) else None.

(** Digits of a base-10 literal, with single underscores allowed between
    digits ([int("1_0") = 10]); [acc] is the value read so far. *)
Fixpoint digits_val (prev_digit : bool) (acc : Z) (l : list ascii) : option Z :=
  match l with
  | [] => if prev_digit then Some acc else None
  | c :: r =>
      if Ascii.eqb c "_"%char then
        if prev_digit then digits_val false acc r else None
      else match digit_val c with
           | Some d => digits_val true (10 * acc + d) r
           | None => None
           end
  end.

(** [int(s)] on a [str]: surrounding whitespace, an optional sign, then a
    base-10 literal; [None] is ValueError. *)
Definition int_of_string (s : string) : option Z :=
  match strip_l (list_ascii_of_string s) with
  | c :: r =>
      if Ascii.eqb c "-"%char then option_map Z.opp (digits_val false 0 r)
      else if Ascii.eqb c "+"%char then digits_val false 0 r
      else digits_val false 0 (c :: r)
  | [] => None
  end.

(** [str(n)] for an [int]. *)
Fixpoint uint_to_string (d : Decimal.uint) : string :=
  match d with
  | Decimal.Nil => EmptyString
  | Decimal.D0 r => String "0" (uint_to_string r)
  | Decimal.D1 r => String "1" (uint_to_string r)
  | Decimal.D2 r => String "2" (uint_to_string r)
  | Decimal.D3 r => String "3" (uint_to_string r)
  | Decimal.D4 r => String "4" (uint_to_string r)
  | Decimal.D5 r => String "5" (uint_to_string r)
  | Decimal.D6 r => String "6" (uint_to_string r)
  | Decimal.D7 r => String "7" (uint_to_string r)
  | Decimal.D8 r => String "8" (uint_to_string r)
  | Decimal.D9 r => String "9" (uint_to_string r)
  end.

Definition str_int (z : Z) : string :=
  match Z.to_int z with
  | Decimal.Pos d => uint_to_string d
  | Decimal.Neg d => String "-" (uint_to_string d)
  end.

(** [f"{n:0>8d}"]: right-aligned in a field of width 8, filled with '0';
    longer renderings are kept whole. *)
Definition pad8 (z : Z) : string :=
  let s := str_int z in
  String.append (String.concat "" (repeat "0"%string (8 - String.length s)))%nat s.

(** [s.upper()] on ASCII. *)
Definition upper_char (c : ascii) : ascii :=
  let n := nat_of_ascii c in
  if ((97 <=? n)%nat && (n <=? 122)%nat)%bool then ascii_of_nat (n - 32) else c.

Definition upper (s : string) : string :=
  string_of_list_ascii (map upper_char (list_ascii_of_string s)).

(** [s[:n]] *)
Definition take (n : nat) (s : string) : string := String.substring 0 n s.

(** [os.path.join(a, b)] on POSIX. *)
Definition path_join (a b : string) : string :=
  if String.prefix "/" b then b
  else if String.eqb a "" then b
  else if String.eqb (String.substring (String.length a - 1) 1 a) "/" then String.append a b
  else String.append a (String.append "/" b).

End Py.

(* ------------------------------------------------------------------ *)
(** ** World, exceptions and the effect monad *)

(** Contents of a local file: decodable audio (one sample per millisecond,
    so [len(AudioSegment)] is the list length) or bytes pydub cannot decode. *)
Inductive blob :=
| Audio (ms : list Z)
| Junk.

(** Python objects handed to [crop_audio] as its path: a [str], the
    [(path, fetched)] tuple returned by the adapters, or [None]. *)
Inductive pyobj :=
| PyStr (s : string)
| PyTuple (s : string) (b : bool)
| PyNone.

(** Python truthiness: a 2-tuple is always true. *)
Definition truthy (o : pyobj) : bool :=
  match o with
  | PyStr s => negb (String.eqb s "")
  | PyTuple _ _ => true
  | PyNone => false
  end.

Inductive exc :=
| ValueError | KeyError | IndexError | RuntimeError
| FileNotFoundError | AttributeError | DecodeError | DownloadError
| UnboundLocalError | TypeError.

(** One element of an entry's [audio] list:
    [{"link", "audio_path", "start_ms", "end_ms"}]. *)
Record asset := mkAsset {
  as_link : string;
  as_path : pyobj;
  as_start : Z;
  as_end : Z
}.

Inductive event :=
| EPrint (msg : string)                 (** [print] to stdout or stderr *)
| EGdown (file_id : string)             (** a [gdown.download] call *)
| ESleep (base lo hi : Z)               (** [time.sleep(base + random.uniform(lo, hi))] *)
| EYtDownload (url : string)            (** a [YoutubeDL.download] call *)
| EShell (cmd : string)                 (** an [os.system] call *)
| EWrite (path : string)                (** a file written by the program *)
| EAppendRow (fields : list (string * string)) (audio : list asset).
                                        (** a JSON line appended to the output file: the
                                            keys of [fields] in order, the key "audio"
                                            holding the list [audio] (its string in
                                            [fields] is not written) *)

Record world := mkWorld {
  w_files : gmap string blob;
  w_dirs : gset string;
  w_ffmpeg : bool;                                   (** [shutil.which("ffmpeg")] is not None *)
  w_gdown : string -> nat -> option (string * blob); (** n-th attempt on a Drive id: file name and bytes, or None *)
  w_yt : string -> option blob;                      (** yt-dlp result on a URL; None: it raises *)
  w_curl : string -> Z * option blob;                (** curl on a URL: exit status and the bytes written to [-o] *)
  w_uuid : nat -> string;                            (** [uuid.uuid4().hex] of the n-th call *)
  w_uuid_ctr : nat;
  w_log : list event
}.

Definition set_files (fs : gmap string blob) (w : world) : world :=
  mkWorld fs (w_dirs w) (w_ffmpeg w) (w_gdown w) (w_yt w) (w_curl w) (w_uuid w) (w_uuid_ctr w) (w_log w).
Definition set_dirs (ds : gset string) (w : world) : world :=
  mkWorld (w_files w) ds (w_ffmpeg w) (w_gdown w) (w_yt w) (w_curl w) (w_uuid w) (w_uuid_ctr w) (w_log w).
Definition set_uuid_ctr (n : nat) (w : world) : world :=
  mkWorld (w_files w) (w_dirs w) (w_ffmpeg w) (w_gdown w) (w_yt w) (w_curl w) (w_uuid w) n (w_log w).
Definition add_event (e : event) (w : world) : world :=
  mkWorld (w_files w) (w_dirs w) (w_ffmpeg w) (w_gdown w) (w_yt w) (w_curl w) (w_uuid w) (w_uuid_ctr w)
    (w_log w ++ [e]).

Inductive res (A : Type) :=
| Ok (a : A)
| Exc (e : exc).
Arguments Ok {A} a.
Arguments Exc {A} e.

Definition M (A : Type) := world -> res A * world.

Definition ret {A} (a : A) : M A := fun w => (Ok a, w).
Definition bind {A B} (m : M A) (k : A -> M B) : M B :=
  fun w => match m w with
           | (Ok a, w') => k a w'
           | (Exc e, w') => (Exc e, w')
           end.
Definition raise {A} (e : exc) : M A := fun w => (Exc e, w).
Definition modify (f : world -> world) : M unit := fun w => (Ok tt, f w).
Definition gets {A} (f : world -> A) : M A := fun w => (Ok (f w), w).

(** [try: m except Exception: h] *)
Definition try_except {A} (m : M A) (h : exc -> M A) : M A :=
  fun w => match m w with
           | (Exc e, w') => h e w'
           | r => r
           end.

Notation "'let!' x := m 'in' k" := (bind m (fun x => k)) (at level 200, x name, right associativity).
Notation "m ;; k" := (bind m (fun _ => k)) (at level 100, right associativity).

Definition log (e : event) : M unit := modify (add_event e).

Definition lift_opt {A} (e : exc) (o : option A) : M A :=
  match o with Some a => ret a | None => raise e end.

(* ------------------------------------------------------------------ *)
(** ** Host primitives used by the scripts *)

(** [os.path.exists] *)
Definition path_exists (p : string) : M bool :=
  gets (fun w => match w_files w !! p with
                 | Some _ => true
                 | None => bool_decide (p ∈ w_dirs w)
                 end).

(** [os.makedirs(p, exist_ok=True)]: an empty path raises. *)
Definition makedirs (p : string) : M unit :=
  if String.eqb p "" then raise FileNotFoundError
  else modify (fun w => set_dirs ({[p]} ∪ w_dirs w) w).

Definition write_file (p : string) (b : blob) : M unit :=
  modify (fun w => set_files (<[p := b]> (w_files w)) w) ;; log (EWrite p).

(** [os.remove] *)
Definition remove_file (p : string) : M unit :=
  let! fs := gets w_files in
  match fs !! p with
  | Some _ => modify (set_files (delete p fs))
  | None => raise FileNotFoundError
  end.

(** [pydub.AudioSegment.from_file(o)]: a [str] names a file that is opened
    and decoded; pydub treats any other object as a file-like object and
    fails on [.read()]. *)
Definition from_file (o : pyobj) : M (list Z) :=
  match o with
  | PyStr p =>
      let! fs := gets w_files in
      match fs !! p with
      | Some (Audio a) => ret a
      | Some Junk => raise DecodeError
      | None => raise FileNotFoundError
      end
  | _ => raise AttributeError
  end.

(** [audio.export(o, format=...)]: the samples are kept (the codec is not
    modelled).  Encoding is taken to succeed: pydub's failure path (target
    truncated, temporary files left behind) is outside the model. *)
Definition export (a : list Z) (o : pyobj) : M unit :=
  match o with
  | PyStr p => write_file p (Audio a)
  | _ => raise AttributeError
  end.

(** [str(uuid.uuid4().hex)] *)
Definition uuid4_hex : M string :=
  let! n := gets w_uuid_ctr in
  let! u := gets w_uuid in
  modify (set_uuid_ctr (S n)) ;; ret (u n).

(* ------------------------------------------------------------------ *)
(** ** [timestamp_to_ms] (identical in process_audio.py and
    process_audio_json.py) *)

(** The value handed to it: [None], pandas' NaN for an empty CSV cell, or
    a [str]. *)
Inductive cell :=
| CNone
| CNaN
| CStr (s : string).

Definition timestamp_to_ms (t : cell) : M Z :=
  match t with
  | CNone | CNaN => ret (-1)
  | CStr s =>
      if String.eqb (Py.strip s) "" then ret (-1)
      else
        let! parts := lift_opt ValueError (mapM Py.int_of_string (Py.split ":" s)) in
        match parts with
        | [minutes; seconds] => ret ((0 * 3600 + minutes * 60 + seconds) * 1000)
        | [hours; minutes; seconds] => ret ((hours * 3600 + minutes * 60 + seconds) * 1000)
        | _ => log (EPrint ("Invalid timestamp format: " ++ s)%string) ;; ret (-1)
        end
  end.

(* ------------------------------------------------------------------ *)
(** ** Fetch adapters (src/utils.py) *)

Definition SAMPLING_RATE : Z := 44100.

(** [if not output_id: output_id = str(uuid.uuid4().hex)[:8].upper()] *)
Definition resolve_output_id (output_id : option string) : M string :=
  match output_id with
  | Some s => if String.eqb s "" then let! h := uuid4_hex in ret (Py.upper (Py.take 8 h)) else ret s
  | None => let! h := uuid4_hex in ret (Py.upper (Py.take 8 h))
  end.

(** [if audio_idx:] on an optional [int]. *)
Definition idx_truthy (audio_idx : option Z) : bool :=
  match audio_idx with Some i => negb (i =? 0) | None => false end.

(** The file stem [{output_id}_{audio_idx}] or [{output_id}]. *)
Definition stem (output_id : string) (audio_idx : option Z) : string :=
  match audio_idx with
  | Some i => if idx_truthy audio_idx then (output_id ++ "_" ++ Py.str_int i)%string else output_id
  | None => output_id
  end.

(** The destination [os.path.join(output_path, f"{stem}.{format}")]. *)
Definition dest_path (output_path output_id : string) (audio_idx : option Z) (format : string) : string :=
  Py.path_join output_path (stem output_id audio_idx ++ "." ++ format)%string.

(** [gdown.download(f"https://drive.google.com/uc?id={file_id}", "tmp/")]:
    on success the file lands under [tmp/] and its path is returned. *)
Definition gdown_download (file_id : string) (attempt : nat) : M (option string) :=
  log (EGdown file_id) ;;
  let! g := gets w_gdown in
  match g file_id attempt with
  | Some (name, b) =>
      let p := ("tmp/" ++ name)%string in
      write_file p b ;; ret (Some p)
  | None => ret None
  end.

(** Outcome of one iteration of the retry loop. *)
Inductive loop_ctl :=
| Break (downloaded_file : string)
| Return (r : string * bool)
| Continue.

(** [for attempt in range(5): ...] of [download_from_google_drive];
    [inl] is the file after [break], [inr] a [return] from inside. *)
Fixpoint gd_loop (file_id : string) (attempts : list nat) : M (string + (string * bool)) :=
  match attempts with
  | [] => raise UnboundLocalError
  | attempt :: rest =>
      (if (0 <? attempt)%nat then log (EPrint "Retrying download from Google Drive") else ret tt) ;;
      let! ctl :=
        try_except
          (let! d := gdown_download file_id attempt in
           match d with
           | Some f => ret (Break f)
           | None => raise DownloadError
           end)
          (fun _ =>
             if (attempt =? 4)%nat then
               log (EPrint "Failed to download after 5 attempts") ;; ret (Return (""%string, false))
             else log (ESleep (3 ^ (Z.of_nat attempt + 1)) 0 1) ;; ret Continue) in
      match ctl with
      | Break f => ret (inl f)
      | Return r => ret (inr r)
      | Continue => gd_loop file_id rest
      end
  end.

Definition download_from_google_drive (url format output_path : string)
    (output_id : option string) (audio_idx : option Z) : M (string * bool) :=
  makedirs output_path ;;
  let! oid := resolve_output_id output_id in
  let! file_id := lift_opt IndexError (Py.index (Py.split "/" url) (-2)) in
  let output_file := dest_path output_path oid audio_idx format in
  makedirs "tmp" ;;
  let! ex := path_exists output_file in
  if ex then
    log (EPrint ("File " ++ output_file ++ " already exists, skipping download.")%string) ;;
    ret (output_file, false)
  else
    let! r := gd_loop file_id (seq 0 5) in
    match r with
    | inr res => ret res
    | inl downloaded_file =>
        let! audio := from_file (PyStr downloaded_file) in
        (* [audio.set_frame_rate(SAMPLING_RATE)]: resampling is not modelled *)
        export audio (PyStr output_file) ;;
        remove_file downloaded_file ;;
        ret (output_file, true)
    end.

(** [download_from_yt]: yt-dlp with the FFmpegExtractAudio post-processor
    writes [{outtmpl}.{format}].  What a failed yt-dlp run leaves on disk
    ([.part] files, an unconverted download) is not modelled. *)
Definition download_from_yt (url format output_path : string)
    (output_id : option string) (audio_idx : option Z) : M (string * bool) :=
  makedirs output_path ;;
  let! ffmpeg := gets w_ffmpeg in
  if negb ffmpeg then raise RuntimeError
  else
    let! oid := resolve_output_id output_id in
    let output_file := Py.path_join output_path (stem oid audio_idx) in
    let target := (output_file ++ "." ++ format)%string in
    let! ex := path_exists target in
    if ex then
      log (EPrint ("File " ++ target ++ " already exists, skipping download.")%string) ;;
      ret (target, false)
    else
      try_except
        (log (EYtDownload url) ;;
         let! y := gets w_yt in
         match y url with
         | Some b => write_file target b ;; ret (target, true)
         | None => raise DownloadError
         end)
        (fun _ => log (EPrint "Download failed") ;; ret (""%string, false)).

(** [os.system(f"curl -sL {url} -o {output_file}")]: the exit status is
    returned, never raised; curl may or may not have written the file.  The
    command line is taken as one curl invocation, as it is for a URL without
    shell metacharacters ([;], [&], [$(...)], ...), which the unquoted f-string
    would hand to the shell. *)
Definition os_system_curl (url output_file : string) : M Z :=
  log (EShell ("curl -sL " ++ url ++ " -o " ++ output_file)%string) ;;
  let! c := gets w_curl in
  let '(status, written) := c url in
  match written with
  | Some b => write_file output_file b ;; ret status
  | None => ret status
  end.

Definition download_from_curl (url format output_path : string)
    (output_id : option string) (audio_idx : option Z) : M (string * bool) :=
  makedirs output_path ;;
  let! oid := resolve_output_id output_id in
  let output_file := dest_path output_path oid audio_idx format in
  let! ex := path_exists output_file in
  if ex then
    log (EPrint ("File " ++ output_file ++ " already exists, skipping download.")%string) ;;
    ret (output_file, false)
  else
    try_except
      (os_system_curl url output_file ;; ret (output_file, true))
      (fun _ => log (EPrint "Download failed") ;; ret (""%string, false)).

(* ------------------------------------------------------------------ *)
(** ** Windowing *)

(** [audio[start:end]] of pydub, in milliseconds: bounds are cut at the
    length, a negative bound counts from the end. *)
Definition seg_slice (a : list Z) (s e : Z) : list Z :=
  let n := Z.of_nat (length a) in
  let pos v := let v := Z.min v n in if v <? 0 then n + v else v in
  firstn (Z.to_nat (pos e - pos s)) (skipn (Z.to_nat (pos s)) a).

(** [crop_audio] of src/utils.py. *)
Definition crop_audio (audio_path : pyobj) (start_ms end_ms : Z) (output_format : string)
    (max_length : Z) (need_crop : bool) : M (pyobj * Z * Z) :=
  let! audio := from_file audio_path in
  let start_ms := if start_ms <? 0 then 0 else start_ms in
  let end_ms :=
    if (end_ms <? 0) || (max_length <? end_ms - start_ms)
    then Z.max (start_ms + max_length) (Z.of_nat (length audio))
    else end_ms in
  if negb need_crop then ret (audio_path, start_ms, end_ms)
  else
    export (seg_slice audio start_ms end_ms) audio_path ;;
    ret (audio_path, start_ms, end_ms).

(** One iteration of the main loop of src/sample_and_crop.py (lines 65-104).
    [start_ms] and [end_ms] are [row.get('startMs', -1)] and
    [row.get('endMs', -1)]; the result is the window written to the output
    record, [None] when the iteration writes nothing. *)
Definition MAX_AUDIO_LENGTH_SC : Z := 30 * 1000.

(** [row['audioPath'].split("/")[-1]]: [split] never returns an empty
    list, so [[-1]] exists. *)
Definition sc_base (audioPath : string) : string :=
  match Py.index (Py.split "/" audioPath) (-1) with Some b => b | None => ""%string end.

Definition sc_step (verify_only : bool) (audio_dir output_dir : string)
    (audioPath : string) (start_ms end_ms : Z) : M (option (Z * Z)) :=
  let base := sc_base audioPath in
  let save_path := Py.path_join audio_dir base in
  let! audio := if verify_only then ret [] else from_file (PyStr save_path) in
  let len_audio := Z.of_nat (length audio) in
  let! start_ms :=
    if start_ms <? 0 then log (EPrint "Warning: start_ms < 0") ;; ret 0 else ret start_ms in
  let! end_ms :=
    if negb verify_only && (len_audio <? end_ms)
    then log (EPrint "Warning: end_ms > audio length") ;; ret len_audio else ret end_ms in
  let! ctl :=
    if (end_ms <? 0) || (MAX_AUDIO_LENGTH_SC <? end_ms - start_ms) then
      if verify_only then log (EPrint "Warning: end_ms < 0 or too long") ;; ret None
      else
        let e := Z.min (start_ms + MAX_AUDIO_LENGTH_SC) len_audio in
        log (EPrint "Warning: end_ms < 0 or too long") ;; ret (Some e)
    else ret (Some end_ms) in
  match ctl with
  | None => ret None
  | Some end_ms =>
      if verify_only then ret None
      else
        export (seg_slice audio start_ms end_ms) (PyStr (Py.path_join output_dir base)) ;;
        ret (Some (start_ms, end_ms))
  end.

(* ------------------------------------------------------------------ *)
(** ** Source classification *)

Inductive adapter :=
| CloudDrive
| VideoHost
| GenericHttp.

(** The [if "drive" in link / elif "youtu" in link / else] chain of
    [process_audio_download] in process_audio_json.py. *)
Definition classify_json (link : string) : adapter :=
  if Py.contains "drive" link then CloudDrive
  else if Py.contains "youtu" link then VideoHost
  else GenericHttp.

(** The same chain in process_audio.py, whose [else] branch reports the
    link as unsupported and downloads nothing. *)
Definition classify_csv (link : string) : option adapter :=
  if Py.contains "drive" link then Some CloudDrive
  else if Py.contains "youtu" link then Some VideoHost
  else None.

(** [url.split("&")[0]] *)
Definition strip_params (url : string) : string :=
  match Py.split "&" url with u :: _ => u | [] => url end.

(* ------------------------------------------------------------------ *)
(** ** JSON orchestrator (src/process_audio_json.py) *)

(** A row of [csv.DictReader]: column name to text, in column order. *)
Definition row := list (string * string).

Fixpoint dict_get (k : string) (r : row) : option string :=
  match r with
  | [] => None
  | (k', v) :: r' => if String.eqb k k' then Some v else dict_get k r'
  end.

(** [r[k] = v]: an existing key keeps its position, a new key goes last. *)
Definition dict_set (k v : string) (r : row) : row :=
  if existsb (fun kv => String.eqb k (fst kv)) r
  then map (fun kv => if String.eqb k (fst kv) then (k, v) else kv) r
  else r ++ [(k, v)].

Definition dict_pop (k : string) (r : row) : row :=
  filter (fun kv => negb (String.eqb k (fst kv))) r.

Definition cell_of (o : option string) : cell :=
  match o with Some s => CStr s | None => CNone end.

Record args := mkArgs {
  a_format : string;
  a_audio_dir : string;
  a_output_file : string
}.

Definition MAX_AUDIO_LENGTH_JSON : Z := 30.

Definition key (base : string) (i : Z) : string := (base ++ "_" ++ Py.str_int i)%string.

(** [process_audio_download(row, args, audio_idx=1)]: every exception of
    the adapters is caught and turned into [None]; the handler's message
    reads [row['unique_id']] again, so a row without that key makes the
    handler itself raise KeyError.  The exception text [{e}] that ends the
    message is not modelled. *)
Definition process_audio_download (r : row) (a : args) (audio_idx : Z) : M pyobj :=
  try_except
    (let! link := lift_opt KeyError (dict_get (key "link" audio_idx) r) in
     let! uid := lift_opt KeyError (dict_get "unique_id" r) in
     let! res :=
       match classify_json link with
       | CloudDrive =>
           download_from_google_drive link (a_format a) (a_audio_dir a) (Some uid) (Some audio_idx)
       | VideoHost =>
           download_from_yt (strip_params link) (a_format a) (a_audio_dir a) (Some uid) (Some audio_idx)
       | GenericHttp =>
           download_from_curl link (a_format a) (a_audio_dir a) (Some uid) (Some audio_idx)
       end in
     ret (PyTuple (fst res) (snd res)))
    (fun _ =>
       let! uid := lift_opt KeyError (dict_get "unique_id" r) in
       log (EPrint ("Error downloading audio for " ++ uid ++ " (link " ++ Py.str_int audio_idx ++ ")")%string) ;;
       ret PyNone).

(** [for audio_idx in range(1, 4): ...] inside [main]; note the call
    [process_audio_download(row, args)], which leaves [audio_idx] at its
    default 1. *)
Fixpoint json_refs (a : args) (r : row) (idxs : list Z) (audio_data : list asset) : M (list asset) :=
  match idxs with
  | [] => ret audio_data
  | audio_idx :: rest =>
      match dict_get (key "link" audio_idx) r with
      | None => json_refs a r rest audio_data
      | Some l =>
          if String.eqb l "" then json_refs a r rest audio_data
          else
            let! audio_path := process_audio_download r a 1 in
            let! start_ms := timestamp_to_ms (cell_of (dict_get (key "start" audio_idx) r)) in
            let! end_ms := timestamp_to_ms (cell_of (dict_get (key "end" audio_idx) r)) in
            if truthy audio_path then
              let! c := crop_audio audio_path start_ms end_ms (a_format a)
                          (MAX_AUDIO_LENGTH_JSON * 1000) true in
              let '(p, s, e) := c in
              let! link := lift_opt KeyError (dict_get (key "link" audio_idx) r) in
              json_refs a r rest (audio_data ++ [mkAsset link p s e])
            else json_refs a r rest audio_data
      end
  end.

Definition indexed_keys : list string :=
  ["link_1"; "link_2"; "link_3"; "start_1"; "start_2"; "start_3"; "end_1"; "end_2"; "end_3"]%string.

(** [row["unique_id"] = f"{idx:0>8d}"] *)
Definition json_assign_id (idx : Z) (r : row) : row := dict_set "unique_id" (Py.pad8 idx) r.

(** One iteration of [for idx, row in enumerate(data)]: [row["audio"] =
    audio_data] puts the key "audio" in place (replacing an input column of
    that name), then the nine indexed keys are popped. *)
Definition json_entry (a : args) (idx : Z) (r0 : row) : M unit :=
  let r := json_assign_id idx r0 in
  let! audio_data := json_refs a r [1; 2; 3] [] in
  let r' := fold_left (fun acc k => dict_pop k acc) indexed_keys (dict_set "audio" "" r) in
  log (EAppendRow r' audio_data).

Fixpoint json_loop (a : args) (idx : Z) (data : list row) : M unit :=
  match data with
  | [] => ret tt
  | r :: rest => json_entry a idx r ;; json_loop a (idx + 1) rest
  end.

(** [main(args)], with [data] the rows read from the input file. *)
Definition json_main (a : args) (data : list row) : M unit :=
  makedirs (a_audio_dir a) ;; json_loop a 0 data.

(* ------------------------------------------------------------------ *)
(** ** CSV orchestrator (src/process_audio.py) *)

Fixpoint mapM_M {A B} (f : A -> M B) (l : list A) : M (list B) :=
  match l with
  | [] => ret []
  | x :: l' => let! y := f x in let! ys := mapM_M f l' in ret (y :: ys)
  end.

(** A DataFrame row: column name to cell. *)
Definition csv_row := list (string * cell).

Fixpoint csv_get (k : string) (r : csv_row) : option cell :=
  match r with
  | [] => None
  | (k', v) :: r' => if String.eqb k k' then Some v else csv_get k r'
  end.

Definition csv_set (k : string) (v : cell) (r : csv_row) : csv_row :=
  if existsb (fun kv => String.eqb k (fst kv)) r
  then map (fun kv => if String.eqb k (fst kv) then (k, v) else kv) r
  else r ++ [(k, v)].

(** [row[k]] where the value must be a [str] for the [in] test. *)
Definition csv_str (k : string) (r : csv_row) : M string :=
  match csv_get k r with
  | Some (CStr s) => ret s
  | Some _ => raise TypeError
  | None => raise KeyError
  end.

Definition MAX_AUDIO_LENGTH_CSV : Z := 15.

(** [process_audio_download(row, args)] of process_audio.py: no handler
    around the adapters. *)
Definition csv_process_audio_download (r : csv_row) (a : args) : M pyobj :=
  let! link := csv_str "link" r in
  match classify_csv link with
  | Some CloudDrive =>
      let! uid := csv_str "unique_id" r in
      let! res := download_from_google_drive link (a_format a) (a_audio_dir a) (Some uid) None in
      ret (PyTuple (fst res) (snd res))
  | Some VideoHost =>
      let! uid := csv_str "unique_id" r in
      let! res := download_from_yt (strip_params link) (a_format a) (a_audio_dir a) (Some uid) None in
      ret (PyTuple (fst res) (snd res))
  | Some GenericHttp | None =>
      log (EPrint ("Unsupported link format: " ++ link)%string) ;; ret PyNone
  end.

(** [[str(uuid.uuid4().hex)[:8].upper() for _ in range(len(df))]] *)
Definition fresh_ids (n : nat) : M (list string) :=
  mapM_M (fun _ => let! h := uuid4_hex in ret (Py.upper (Py.take 8 h))) (repeat tt n).

(** [df["start_ms"] = df["start"].apply(timestamp_to_ms)] when the column
    exists. *)
Definition ms_column (cols : list string) (c : string) (rows : list csv_row) : M (list (option Z)) :=
  if existsb (String.eqb c) cols then
    mapM_M (fun r => let! v := timestamp_to_ms (match csv_get c r with Some x => x | None => CNone end) in
                     ret (Some v)) rows
  else ret (map (fun _ => None) rows).

Definition csv_crop_all (a : args) (paths : list pyobj) (starts ends : list (option Z)) :
    M (list (pyobj * Z * Z)) :=
  mapM_M (fun '(p, (s, e)) =>
            crop_audio p (match s with Some v => v | None => 0 end)
                         (match e with Some v => v | None => MAX_AUDIO_LENGTH_CSV * 1000 end)
                         (a_format a) (MAX_AUDIO_LENGTH_CSV * 1000) true)
         (combine paths (combine starts ends)).

(** [main(args)] of process_audio.py on a frame with columns [cols]. *)
Definition csv_main (a : args) (cols : list string) (rows0 : list csv_row) : M unit :=
  makedirs (a_audio_dir a) ;;
  let! ids := fresh_ids (length rows0) in
  let rows := zip_with (fun r u => csv_set "unique_id" (CStr u) r) rows0 ids in
  let! paths := mapM_M (fun r => csv_process_audio_download r a) rows in
  let! starts := ms_column cols "start" rows in
  let! ends := ms_column cols "end" rows in
  let! _ := csv_crop_all a paths starts ends in
  log (EWrite (a_output_file a)).

(* ------------------------------------------------------------------ *)
(** ** Sample hosts *)

(** A host with ffmpeg, one decoded clip of 60 s at the JSON orchestrator's
    first destination, and no network. *)
Definition clip_world : world :=
  mkWorld (<["data/audio/00000000_1.mp3" := Audio (repeat 0 (Z.to_nat 60000))]> ∅) ∅ true
    (fun _ _ => None) (fun _ => None) (fun _ => (0, None))
    (fun _ => "3f2a9c1e7b5d4e6f8a0b1c2d3e4f5a6b"%string) 0 [].

(** A host where Drive ids "A" and "C" download at the first attempt and
    "B" never does. *)
Definition drive_world : world :=
  mkWorld ∅ ∅ true
    (fun fid _ => if String.eqb fid "B" then None
                  else Some ((fid ++ ".mp3")%string, Audio (repeat 0 (Z.to_nat 40000))))
    (fun _ => Some (Audio (repeat 0 (Z.to_nat 40000)))) (fun _ => (0, None))
    (fun _ => "3f2a9c1e7b5d4e6f8a0b1c2d3e4f5a6b"%string) 0 [].

(** A host without ffmpeg on its PATH. *)
Definition no_ffmpeg_world : world :=
  mkWorld ∅ ∅ false (w_gdown drive_world) (w_yt drive_world) (w_curl drive_world)
    (w_uuid drive_world) 0 [].

(** A host where curl cannot reach anything: exit status 6, nothing written. *)
Definition offline_world : world :=
  mkWorld ∅ ∅ true (fun _ _ => None) (fun _ => None) (fun _ => (6, None))
    (fun _ => "3f2a9c1e7b5d4e6f8a0b1c2d3e4f5a6b"%string) 0 [].

Definition json_args : args := mkArgs "mp3" "data/audio" "data/processed.jsonl".


(* ------------------------------------------------------------------ *)
(** ** Auxiliary definitions and a further sample host *)

(** Value of a decimal digit string, read left to right from [acc]
    (the reading [digits_val] performs). *)
Fixpoint uint_horner (acc : Z) (d : Decimal.uint) : Z :=
  match d with
  | Decimal.Nil => acc
  | Decimal.D0 r => uint_horner (10 * acc + 0) r
  | Decimal.D1 r => uint_horner (10 * acc + 1) r
  | Decimal.D2 r => uint_horner (10 * acc + 2) r
  | Decimal.D3 r => uint_horner (10 * acc + 3) r
  | Decimal.D4 r => uint_horner (10 * acc + 4) r
  | Decimal.D5 r => uint_horner (10 * acc + 5) r
  | Decimal.D6 r => uint_horner (10 * acc + 6) r
  | Decimal.D7 r => uint_horner (10 * acc + 7) r
  | Decimal.D8 r => uint_horner (10 * acc + 8) r
  | Decimal.D9 r => uint_horner (10 * acc + 9) r
  end.

(** Characters of an integer rendering: neither whitespace nor ':'. *)
Definition plain_char (c : ascii) : Prop := Py.is_space c = false /\ c <> ":"%char.

(** The row [json_entry] appends: [unique_id] set, "audio" in place, the
    nine indexed keys popped. *)
Definition json_output_row (idx : Z) (r0 : row) : row :=
  fold_left (fun acc k => dict_pop k acc) indexed_keys (dict_set "audio" "" (json_assign_id idx r0)).

(** A host where every Drive download fails twice and succeeds at the
    third attempt, except the id "J", which yields bytes pydub cannot
    decode. *)
Definition flaky_world : world :=
  mkWorld ∅ ∅ true
    (fun fid n => if String.eqb fid "J" then Some ("J.bin"%string, Junk)
                  else if (n <? 2)%nat then None
                  else Some ((fid ++ ".mp3")%string, Audio (repeat 0 (Z.to_nat 40000))))
    (fun _ => None) (fun _ => (0, None))
    (fun _ => "3f2a9c1e7b5d4e6f8a0b1c2d3e4f5a6b"%string) 0 [].

(* ================================================================== *)
(** * Properties *)

(* ------------------------------------------------------------------ *)
(** ** Timestamps *)

Lemma timestamp_blank (w : world) (s : string) :
  Py.strip s = ""%string -> timestamp_to_ms (CStr s) w = (Ok (-1), w).
Proof. intros H. unfold timestamp_to_ms. rewrite H. reflexivity. Qed.

(** C4 (amended): [timestamp_to_ms] gives 3723000 for "01:02:03", 125000
    for "02:05" and -1 for None, NaN or blank text (empty, or whitespace
    only: [strip()] leaves nothing).  A non-blank string
    whose colon-separated parts are all int literals but are neither 2 nor
    3 in number is logged as invalid and mapped to -1 itself: no error
    value is produced.  A part that is not an int literal raises
    ValueError. *)
Theorem timestamp_to_ms_contract (w : world) (s : string) (parts : list Z)
    (Hs : Py.strip s <> ""%string)
    (Hp : mapM Py.int_of_string (Py.split ":" s) = Some parts)
    (Hn : length parts <> 2%nat /\ length parts <> 3%nat) :
  timestamp_to_ms (CStr "01:02:03") w = (Ok 3723000, w) /\
  timestamp_to_ms (CStr "02:05") w = (Ok 125000, w) /\
  timestamp_to_ms CNone w = (Ok (-1), w) /\
  timestamp_to_ms CNaN w = (Ok (-1), w) /\
  (forall s' : string, Py.strip s' = ""%string -> timestamp_to_ms (CStr s') w = (Ok (-1), w)) /\
  timestamp_to_ms (CStr s) w =
    (Ok (-1), add_event (EPrint ("Invalid timestamp format: " ++ s)%string) w) /\
  (forall s' : string, Py.strip s' <> ""%string ->
     mapM Py.int_of_string (Py.split ":" s') = None ->
     timestamp_to_ms (CStr s') w = (Exc ValueError, w)).
Proof.
  split; [reflexivity|]. split; [reflexivity|].
  split; [reflexivity|]. split; [reflexivity|]. split; [exact (timestamp_blank w)|].
  split.
  - unfold timestamp_to_ms.
    destruct (String.eqb_spec (Py.strip s) ""); [contradiction|].
    unfold bind, lift_opt. rewrite Hp.
    destruct Hn as [H2 H3].
    destruct parts as [|a [|b [|c [|d l]]]]; cbn in H2, H3 |- *;
      try congruence; reflexivity.
  - intros s' Hs' Hp'. unfold timestamp_to_ms.
    destruct (String.eqb_spec (Py.strip s') ""); [contradiction|].
    unfold bind, lift_opt. rewrite Hp'. reflexivity.
Qed.

Lemma timestamp_to_ms_contract_witness :
  Py.strip "1:2:3:4" <> ""%string /\
  timestamp_to_ms (CStr "1:2:3:4") clip_world =
    (Ok (-1), add_event (EPrint "Invalid timestamp format: 1:2:3:4") clip_world).
Proof.
  split; [discriminate|].
  destruct (timestamp_to_ms_contract clip_world "1:2:3:4" [1; 2; 3; 4])
    as (_ & _ & _ & _ & _ & H & _).
  - discriminate.
  - reflexivity.
  - cbn. split; discriminate.
  - exact H.
Defined.

(** C4 (counterexample): "1:2:3:4" yields the value -1, not an error;
    "1:2:3:x", also with four parts, raises ValueError from [int("x")]. *)
Lemma timestamp_bad_arity_is_sentinel :
  fst (timestamp_to_ms (CStr "1:2:3:4") clip_world) = Ok (-1) /\
  fst (timestamp_to_ms (CStr "1:2:3:x") clip_world) = Exc ValueError.
Proof. split; reflexivity. Qed.

(* ------------------------------------------------------------------ *)
(** ** Source classification *)

Lemma prefix_app (s t : string) : String.prefix s (s ++ t) = true.
Proof.
  induction s as [|c s IH]; simpl.
  - destruct t; reflexivity.
  - destruct (ascii_dec c c); [exact IH | contradiction].
Qed.

Lemma contains_app (p needle q : string) :
  Py.contains needle (p ++ needle ++ q) = true.
Proof.
  unfold Py.contains.
  induction p as [|c p IH].
  - pose proof (prefix_app needle q) as Hp.
    change (""%string ++ needle ++ q)%string with (needle ++ q)%string.
    revert Hp. destruct (needle ++ q)%string; cbn; intros Hp; rewrite Hp; reflexivity.
  - change (String c p ++ needle ++ q)%string with (String c (p ++ needle ++ q)).
    cbn [Py.contains_at]. rewrite IH. apply orb_true_r.
Qed.

(** C6 (amended): both orchestrators send a link containing "drive" to
    the Cloud-Drive adapter whatever else it contains, and otherwise a
    link containing "youtu" to the Video-Host adapter.  Any other link
    goes to the Generic-HTTP adapter in process_audio_json.py, while
    process_audio.py has no such adapter: it reports the link as
    unsupported and fetches nothing. *)
Theorem classify_precedence (link p q : string) :
  (classify_json (p ++ "drive" ++ q) = CloudDrive /\
   classify_csv (p ++ "drive" ++ q) = Some CloudDrive) /\
  ((Py.contains "drive" link = true /\
    classify_json link = CloudDrive /\ classify_csv link = Some CloudDrive) \/
   (Py.contains "drive" link = false /\ Py.contains "youtu" link = true /\
    classify_json link = VideoHost /\ classify_csv link = Some VideoHost) \/
   (Py.contains "drive" link = false /\ Py.contains "youtu" link = false /\
    classify_json link = GenericHttp /\ classify_csv link = None)).
Proof.
  unfold classify_json, classify_csv. split.
  - rewrite contains_app. split; reflexivity.
  - destruct (Py.contains "drive" link); [left; auto|right].
    destruct (Py.contains "youtu" link); [left | right]; auto.
Qed.

(** C6 (counterexample): a direct link is not routed to any adapter by
    process_audio.py. *)
Lemma csv_direct_link_unsupported :
  classify_csv "https://example.com/clip.mp3" = None /\
  fst (csv_process_audio_download [("link", CStr "https://example.com/clip.mp3");
                                   ("unique_id", CStr "3F2A9C1E")] json_args clip_world)
    = Ok PyNone.
Proof. split; reflexivity. Qed.

(* ------------------------------------------------------------------ *)
(** ** Entry identifiers *)

Lemma dict_get_set (k v : string) (r : row) : dict_get k (dict_set k v r) = Some v.
Proof.
  unfold dict_set.
  destruct (existsb (fun kv => String.eqb k (fst kv)) r) eqn:E.
  - induction r as [|[k' v'] r IH]; cbn in *; [discriminate|].
    destruct (String.eqb_spec k k'); cbn.
    + rewrite String.eqb_refl. reflexivity.
    + destruct (String.eqb_spec k k'); [contradiction|]. auto.
  - induction r as [|[k' v'] r IH]; cbn in *.
    + rewrite String.eqb_refl. reflexivity.
    + destruct (String.eqb_spec k k'); [discriminate|]. auto.
Qed.

Lemma dict_get_set_ne (k k' v : string) (r : row) :
  k <> k' -> dict_get k (dict_set k' v r) = dict_get k r.
Proof.
  intros Hne. unfold dict_set.
  destruct (existsb _ r).
  - induction r as [|[k1 v1] r IH]; cbn; [reflexivity|].
    destruct (String.eqb_spec k' k1) as [<-|]; cbn.
    + destruct (String.eqb_spec k k'); [contradiction|]. rewrite IH. reflexivity.
    + rewrite IH. reflexivity.
  - induction r as [|[k1 v1] r IH]; cbn.
    + destruct (String.eqb_spec k k'); [contradiction|reflexivity].
    + rewrite IH. reflexivity.
Qed.

Lemma csv_get_set (k : string) (v : cell) (r : csv_row) : csv_get k (csv_set k v r) = Some v.
Proof.
  unfold csv_set.
  destruct (existsb (fun kv => String.eqb k (fst kv)) r) eqn:E.
  - induction r as [|[k' v'] r IH]; cbn in *; [discriminate|].
    destruct (String.eqb_spec k k'); cbn.
    + rewrite String.eqb_refl. reflexivity.
    + destruct (String.eqb_spec k k'); [contradiction|]. auto.
  - induction r as [|[k' v'] r IH]; cbn in *.
    + rewrite String.eqb_refl. reflexivity.
    + destruct (String.eqb_spec k k'); [discriminate|]. auto.
Qed.

Lemma length_concat_zeros (n : nat) :
  String.length (String.concat "" (repeat "0"%string n)) = n.
Proof.
  induction n as [|n IH]; [reflexivity|].
  destruct n as [|n]; [reflexivity|].
  transitivity (S (String.length (String.concat "" (repeat "0"%string (S n))))).
  - reflexivity.
  - rewrite IH. reflexivity.
Qed.

Lemma length_string_of_list (l : list ascii) :
  String.length (string_of_list_ascii l) = length l.
Proof. induction l as [|c l IH]; cbn; [reflexivity | rewrite IH; reflexivity]. Qed.

Lemma length_list_of_string (s : string) :
  length (list_ascii_of_string s) = String.length s.
Proof. induction s as [|c s IH]; simpl; [reflexivity | rewrite IH; reflexivity]. Qed.

Lemma length_upper (s : string) : String.length (Py.upper s) = String.length s.
Proof.
  unfold Py.upper.
  rewrite length_string_of_list, length_map, length_list_of_string. reflexivity.
Qed.

Lemma length_take (n : nat) (s : string) :
  String.length (Py.take n s) = Nat.min n (String.length s).
Proof.
  unfold Py.take. revert s.
  induction n as [|n IH]; intros [|c s]; cbn; try reflexivity.
  rewrite IH. reflexivity.
Qed.

Lemma fresh_ids_run (n : nat) (w : world) :
  fresh_ids n w =
  (Ok (map (fun k => Py.upper (Py.take 8 (w_uuid w k))) (seq (w_uuid_ctr w) n)),
   set_uuid_ctr (w_uuid_ctr w + n) w).
Proof.
  unfold fresh_ids. revert w.
  induction n as [|n IH]; intros w.
  - destruct w. cbn. rewrite Nat.add_0_r. reflexivity.
  - cbn [repeat mapM_M]. unfold bind at 1. cbn.
    unfold bind. rewrite IH. cbn.
    rewrite Nat.add_succ_r. reflexivity.
Qed.

Lemma length_append (s t : string) :
  String.length (s ++ t) = (String.length s + String.length t)%nat.
Proof. induction s as [|c s IH]; simpl; [reflexivity | rewrite IH; reflexivity]. Qed.

Lemma pad8_length (idx : Z) :
  String.length (Py.pad8 idx) = Nat.max 8 (String.length (Py.str_int idx)).
Proof. unfold Py.pad8. rewrite length_append, length_concat_zeros. lia. Qed.

Lemma csv_get_set_ne (k k' : string) (v : cell) (r : csv_row) :
  k <> k' -> csv_get k (csv_set k' v r) = csv_get k r.
Proof.
  intros Hne. unfold csv_set.
  destruct (existsb _ r).
  - induction r as [|[k1 v1] r IH]; cbn; [reflexivity|].
    destruct (String.eqb_spec k' k1) as [<-|]; cbn.
    + destruct (String.eqb_spec k k'); [contradiction|]. rewrite IH. reflexivity.
    + rewrite IH. reflexivity.
  - induction r as [|[k1 v1] r IH]; cbn.
    + destruct (String.eqb_spec k k'); [contradiction|reflexivity].
    + rewrite IH. reflexivity.
Qed.

Lemma bind_assoc_pt {A B C} (m : M A) (k : A -> M B) (h : B -> M C) (w : world) :
  bind (bind m k) h w = bind m (fun x => bind (k x) h) w.
Proof. unfold bind. destruct (m w) as [[x|e] w1]; reflexivity. Qed.

Lemma bind_ext_pt {A B} (m m' : M A) (k k' : A -> M B) (w : world) :
  (forall w, m w = m' w) -> (forall x w, k x w = k' x w) -> bind m k w = bind m' k' w.
Proof.
  intros Hm Hk. unfold bind. rewrite Hm. destruct (m' w) as [[x|e] w1]; [apply Hk|reflexivity].
Qed.

Lemma json_loop_app (a : args) (i : Z) (d1 d2 : list row) (w : world) :
  json_loop a i (d1 ++ d2) w = (json_loop a i d1 ;; json_loop a (i + Z.of_nat (length d1)) d2) w.
Proof.
  revert i w. induction d1 as [|r d1 IH]; intros i w; cbn [app json_loop length].
  - unfold bind, ret. rewrite Z.add_0_r. reflexivity.
  - rewrite bind_assoc_pt. apply bind_ext_pt; [reflexivity|].
    intros [] w1. rewrite IH.
    replace (i + 1 + Z.of_nat (length d1)) with (i + Z.of_nat (S (length d1))) by lia.
    reflexivity.
Qed.

Lemma json_loop_position (a : args) (d1 d2 : list row) (r : row) (w : world) :
  json_loop a 0 (d1 ++ r :: d2) w =
  (json_loop a 0 d1 ;; json_entry a (Z.of_nat (length d1)) r ;;
   json_loop a (Z.of_nat (length d1) + 1) d2) w.
Proof.
  rewrite json_loop_app. apply bind_ext_pt; [reflexivity|]. intros [] w1. reflexivity.
Qed.

Lemma key_link_not_uid (i : Z) : key "link" i <> "unique_id"%string.
Proof. unfold key. discriminate. Qed.

Lemma process_audio_download_keys (r r' : row) (a : args) (i : Z) :
  dict_get (key "link" i) r = dict_get (key "link" i) r' ->
  dict_get "unique_id" r = dict_get "unique_id" r' ->
  process_audio_download r a i = process_audio_download r' a i.
Proof. intros H1 H2. unfold process_audio_download. rewrite H1, H2. reflexivity. Qed.

Lemma csv_download_keys (x y : csv_row) (a : args) :
  csv_get "link" x = csv_get "link" y -> csv_get "unique_id" x = csv_get "unique_id" y ->
  csv_process_audio_download x a = csv_process_audio_download y a.
Proof. intros H1 H2. unfold csv_process_audio_download, csv_str. rewrite H1, H2. reflexivity. Qed.

Lemma csv_set_agree (x y : csv_row) (u : cell) :
  (forall k, k <> "unique_id"%string -> csv_get k x = csv_get k y) ->
  forall k, csv_get k (csv_set "unique_id" u x) = csv_get k (csv_set "unique_id" u y).
Proof.
  intros H k. destruct (String.eqb_spec k "unique_id") as [->|Hk].
  - rewrite !csv_get_set. reflexivity.
  - rewrite !csv_get_set_ne by exact Hk. apply H, Hk.
Qed.

Lemma mapM_M_ext {A B} (f g : A -> M B) (R : A -> A -> Prop) (xs ys : list A) :
  Forall2 R xs ys -> (forall x y w, R x y -> f x w = g y w) ->
  forall w, mapM_M f xs w = mapM_M g ys w.
Proof.
  intros HR Hfg. induction HR as [|x y xs ys Hxy HR IH]; intros w; cbn [mapM_M]; [reflexivity|].
  apply bind_ext_pt; [intros w'; apply Hfg, Hxy|].
  intros v w1. apply bind_ext_pt; [exact IH|]. intros; reflexivity.
Qed.

Lemma ms_column_ext (cols : list string) (c : string) (xs ys : list csv_row) :
  Forall2 (fun x y => forall k, csv_get k x = csv_get k y) xs ys ->
  forall w, ms_column cols c xs w = ms_column cols c ys w.
Proof.
  intros HR w. unfold ms_column. destruct (existsb (String.eqb c) cols).
  - apply (mapM_M_ext _ _ _ _ _ HR). intros x y w' Hxy. cbv beta. rewrite Hxy. reflexivity.
  - unfold ret. f_equal. f_equal. induction HR; cbn; congruence.
Qed.

Lemma csv_main_ignores_ids (a : args) (cols : list string) (rows0 rows0' : list csv_row) (w : world) :
  Forall2 (fun x y => forall k, k <> "unique_id"%string -> csv_get k x = csv_get k y) rows0 rows0' ->
  csv_main a cols rows0 w = csv_main a cols rows0' w.
Proof.
  intros HR.
  assert (Hlen : length rows0 = length rows0') by (induction HR; cbn; congruence).
  unfold csv_main. apply bind_ext_pt; [reflexivity|]. intros [] w1.
  rewrite Hlen. apply bind_ext_pt; [reflexivity|]. intros ids w2. cbv zeta.
  assert (HR' : Forall2 (fun x y => forall k, csv_get k x = csv_get k y)
                  (zip_with (fun r u => csv_set "unique_id" (CStr u) r) rows0 ids)
                  (zip_with (fun r u => csv_set "unique_id" (CStr u) r) rows0' ids)).
  { revert ids. induction HR as [|x y xs ys Hxy HR IH]; intros [|u ids]; cbn; try constructor;
      auto using csv_set_agree. }
  apply bind_ext_pt.
  { apply (mapM_M_ext _ _ _ _ _ HR'). intros x y w' Hxy. cbv beta.
    rewrite (csv_download_keys x y a (Hxy "link"%string) (Hxy "unique_id"%string)). reflexivity. }
  intros paths w3. apply bind_ext_pt; [apply ms_column_ext, HR'|]. intros starts w4.
  apply bind_ext_pt; [apply ms_column_ext, HR'|]. intros; reflexivity.
Qed.

Lemma fresh_ids_length8 (n : nat) (w : world) :
  (forall k, String.length (w_uuid w k) = 32%nat) ->
  Forall (fun u => String.length u = 8%nat)
    (map (fun k => Py.upper (Py.take 8 (w_uuid w k))) (seq (w_uuid_ctr w) n)).
Proof.
  intros H. apply List.Forall_forall. intros u Hu. apply in_map_iff in Hu as [k [<- _]].
  rewrite length_upper, length_take, H. reflexivity.
Qed.

(** C10: the orchestrators key every destination on an identifier they
    generate themselves.  process_audio_json.py processes the entry at
    position [k] of its input (after the [k] entries before it) with
    [idx = k], sets the row's [unique_id] to [f"{k:0>8d}"] whatever the
    row held, and each download call then sees only the reference's link
    and that identifier, which it hands to the adapters as [output_id].
    process_audio.py ignores any input [unique_id] column (its whole run
    is the same with or without one) and uses per row the first 8
    characters, upper-cased, of a fresh [uuid4().hex] (32 characters),
    drawn from the host's random source at successive draws. *)
Theorem entry_ids_positional (a : args) (d1 d2 : list row) (r : row) (i : Z) (l : string)
    (w : world) (Hl : dict_get (key "link" i) r = Some l)
    (cols : list string) (rows0 rows0' : list csv_row)
    (Hrows : Forall2 (fun x y => forall k, k <> "unique_id"%string -> csv_get k x = csv_get k y)
               rows0 rows0')
    (n : nat) (Huuid : forall k, String.length (w_uuid w k) = 32%nat)
    (c : csv_row) (u lc : string) (Hc : csv_get "link" c = Some (CStr lc)) :
  json_loop a 0 (d1 ++ r :: d2) w =
    (json_loop a 0 d1 ;; json_entry a (Z.of_nat (length d1)) r ;;
     json_loop a (Z.of_nat (length d1) + 1) d2) w /\
  (forall idx, dict_get "unique_id" (json_assign_id idx r) = Some (Py.pad8 idx) /\
     process_audio_download (json_assign_id idx r) a i w =
     process_audio_download [(key "link" i, l); ("unique_id", Py.pad8 idx)]%string a i w) /\
  Py.pad8 42 = "00000042"%string /\
  csv_main a cols rows0 w = csv_main a cols rows0' w /\
  (exists ids, fresh_ids n w = (Ok ids, set_uuid_ctr (w_uuid_ctr w + n) w) /\
     ids = map (fun k => Py.upper (Py.take 8 (w_uuid w k))) (seq (w_uuid_ctr w) n) /\
     Forall (fun v => String.length v = 8%nat) ids) /\
  csv_process_audio_download (csv_set "unique_id" (CStr u) c) a w =
    csv_process_audio_download [("link", CStr lc); ("unique_id", CStr u)]%string a w.
Proof.
  split; [apply json_loop_position|].
  split.
  { intros idx. split; [apply dict_get_set|].
    rewrite (process_audio_download_keys (json_assign_id idx r)
               [(key "link" i, l); ("unique_id", Py.pad8 idx)]%string a i); [reflexivity| |].
    - unfold json_assign_id. rewrite dict_get_set_ne by apply key_link_not_uid.
      rewrite Hl. cbn [dict_get]. rewrite String.eqb_refl. reflexivity.
    - unfold json_assign_id. rewrite dict_get_set. cbn [dict_get].
      replace (String.eqb "unique_id" (key "link" i)) with false.
      + reflexivity.
      + symmetry. apply String.eqb_neq. intros E. apply (key_link_not_uid i). symmetry. exact E. }
  split; [reflexivity|].
  split; [apply csv_main_ignores_ids, Hrows|].
  split.
  { eexists. split; [apply fresh_ids_run|]. split; [reflexivity|]. apply fresh_ids_length8, Huuid. }
  rewrite (csv_download_keys _ [("link", CStr lc); ("unique_id", CStr u)]%string a); [reflexivity| |].
  - rewrite csv_get_set_ne by discriminate. rewrite Hc. reflexivity.
  - rewrite csv_get_set. reflexivity.
Qed.

Lemma entry_ids_positional_witness :
  csv_main json_args ["link"]%string [[("link", CStr "x"); ("unique_id", CStr "OLD")]]%string clip_world =
  csv_main json_args ["link"]%string [[("link", CStr "x")]]%string clip_world.
Proof.
  assert (HR : Forall2 (fun x y => forall k, k <> "unique_id"%string -> csv_get k x = csv_get k y)
                 [[("link", CStr "x"); ("unique_id", CStr "OLD")]]%string [[("link", CStr "x")]]%string).
  { constructor; [|constructor]. intros k Hk. cbn.
    destruct (String.eqb_spec k "link"); [reflexivity|].
    destruct (String.eqb_spec k "unique_id"); [contradiction|reflexivity]. }
  destruct (entry_ids_positional json_args [] [] [("link_1", "https://youtu.be/abc")]%string 1
              "https://youtu.be/abc" clip_world eq_refl ["link"]%string _ _ HR 2 (fun _ => eq_refl)
              [("link", CStr "x")]%string "ABC" "x" eq_refl) as (_ & _ & _ & H & _).
  exact H.
Defined.

(* ------------------------------------------------------------------ *)
(** ** Idempotent fetches *)

Lemma makedirs_ok (p : string) (w : world) :
  p <> ""%string -> makedirs p w = (Ok tt, set_dirs ({[p]} ∪ w_dirs w) w).
Proof.
  intros H. unfold makedirs. destruct (String.eqb_spec p ""); [contradiction|]. reflexivity.
Qed.

Lemma resolve_given (oid : string) (w : world) :
  oid <> ""%string -> resolve_output_id (Some oid) w = (Ok oid, w).
Proof.
  intros H. unfold resolve_output_id. destruct (String.eqb_spec oid ""); [contradiction|]. reflexivity.
Qed.

Lemma stem_nonempty (oid : string) (idx : option Z) :
  oid <> ""%string -> stem oid idx <> ""%string.
Proof.
  intros H. unfold stem. destruct idx as [i|]; [|exact H].
  destruct (idx_truthy (Some i)); [|exact H].
  destruct oid; [contradiction | discriminate].
Qed.

Lemma str_app_assoc (a b c : string) : (a ++ b ++ c)%string = ((a ++ b) ++ c)%string.
Proof.
  induction a as [|x a IH]; [reflexivity|].
  change (String x (a ++ b ++ c) = String x ((a ++ b) ++ c))%string.
  rewrite IH. reflexivity.
Qed.

Lemma join_append (a b s : string) :
  b <> ""%string -> (Py.path_join a b ++ s)%string = Py.path_join a (b ++ s).
Proof.
  intros Hb. unfold Py.path_join.
  assert (He : forall x, String.prefix "" x = true) by (intros []; reflexivity).
  assert (Hp : String.prefix "/" (b ++ s) = String.prefix "/" b).
  { destruct b as [|c b]; [contradiction|].
    change (String c b ++ s)%string with (String c (b ++ s)).
    cbn [String.prefix]. destruct (ascii_dec "/" c); rewrite ?He; reflexivity. }
  rewrite Hp.
  destruct (String.prefix "/" b); [reflexivity|].
  destruct (String.eqb a ""); [reflexivity|].
  destruct (String.eqb _ "/"); rewrite ?str_app_assoc; reflexivity.
Qed.

Lemma index_neg2 {A} (l : list A) :
  (2 <= length l)%nat -> exists x, Py.index l (-2) = Some x.
Proof.
  intros H. unfold Py.index. cbn.
  destruct (Z.of_nat (length l) + -2 <? 0) eqn:E1; [apply Z.ltb_lt in E1; lia|].
  destruct (Z.of_nat (length l) <=? Z.of_nat (length l) + -2) eqn:E2; [apply Z.leb_le in E2; lia|].
  destruct (nth_error l (Z.to_nat (Z.of_nat (length l) + -2))) eqn:E.
  - eexists; reflexivity.
  - apply nth_error_None in E. lia.
Qed.

Lemma exists_present (p : string) (w : world) :
  w_files w !! p <> None \/ p ∈ w_dirs w -> path_exists p w = (Ok true, w).
Proof.
  intros H. unfold path_exists, gets.
  destruct (w_files w !! p) eqn:E; [reflexivity|].
  destruct H as [H|H]; [contradiction|]. rewrite bool_decide_true by exact H. reflexivity.
Qed.

Lemma present_set_dirs (p : string) (ds : gset string) (w : world) :
  w_files w !! p <> None \/ p ∈ w_dirs w ->
  w_files (set_dirs (ds ∪ w_dirs w) w) !! p <> None \/ p ∈ w_dirs (set_dirs (ds ∪ w_dirs w) w).
Proof. cbn. intros [H|H]; [left; exact H | right; set_solver]. Qed.

Lemma contains_char_in (c : ascii) (hay : string) :
  Py.contains (String c EmptyString) hay = true -> In c (list_ascii_of_string hay).
Proof.
  unfold Py.contains. induction hay as [|x r IH]; cbn; [discriminate|].
  intros H. apply orb_true_iff in H as [H|H].
  - destruct (ascii_dec c x) as [->|]; [left; reflexivity|discriminate].
  - right. apply IH, H.
Qed.

Lemma split_l_nonempty (c : ascii) (l : list ascii) : (1 <= length (Py.split_l c l))%nat.
Proof.
  induction l as [|x r IH]; cbn; [lia|].
  destruct (Ascii.eqb x c); cbn; [lia|].
  destruct (Py.split_l c r); cbn in *; lia.
Qed.

Lemma split_l_sep_length (c : ascii) (l : list ascii) :
  In c l -> (2 <= length (Py.split_l c l))%nat.
Proof.
  induction l as [|x r IH]; cbn; [tauto|]. intros H.
  destruct (Ascii.eqb_spec x c) as [->|Hne]; cbn.
  - pose proof (split_l_nonempty c r). lia.
  - destruct H as [H|H]; [contradiction|].
    specialize (IH H). destruct (Py.split_l c r); cbn in *; lia.
Qed.

Lemma split_sep_length (c : ascii) (s : string) :
  Py.contains (String c EmptyString) s = true -> (2 <= length (Py.split c s))%nat.
Proof.
  intros H. unfold Py.split. rewrite length_map.
  apply split_l_sep_length, contains_char_in, H.
Qed.

Lemma gdrive_existing (w : world) (url fmt dir oid : string) (idx : option Z) :
  dir <> ""%string -> oid <> ""%string -> Py.contains "/" url = true ->
  w_files w !! dest_path dir oid idx fmt <> None \/ dest_path dir oid idx fmt ∈ w_dirs w ->
  exists w', download_from_google_drive url fmt dir (Some oid) idx w =
    (Ok (dest_path dir oid idx fmt, false), w') /\ w_files w' = w_files w /\
    w_log w' = w_log w ++ [EPrint ("File " ++ dest_path dir oid idx fmt ++ " already exists, skipping download.")%string].
Proof.
  intros Hdir Hoid Hurl Hex.
  destruct (index_neg2 _ (split_sep_length _ _ Hurl)) as [fid Hfid].
  unfold download_from_google_drive, bind at 1.
  rewrite (makedirs_ok _ _ Hdir). cbv beta iota.
  unfold bind at 1. rewrite (resolve_given _ _ Hoid). cbv beta iota.
  unfold bind at 1. unfold lift_opt at 1. rewrite Hfid. unfold ret at 1. cbv beta iota zeta.
  unfold bind at 1. rewrite (makedirs_ok "tmp"). 2: discriminate. cbv beta iota.
  unfold bind at 1. rewrite exists_present. 2: apply present_set_dirs, present_set_dirs, Hex.
  cbv beta iota.
  eexists. split; [reflexivity|]. split; reflexivity.
Qed.

Lemma curl_existing (w : world) (url fmt dir oid : string) (idx : option Z) :
  dir <> ""%string -> oid <> ""%string ->
  w_files w !! dest_path dir oid idx fmt <> None \/ dest_path dir oid idx fmt ∈ w_dirs w ->
  exists w', download_from_curl url fmt dir (Some oid) idx w =
    (Ok (dest_path dir oid idx fmt, false), w') /\ w_files w' = w_files w /\
    w_log w' = w_log w ++ [EPrint ("File " ++ dest_path dir oid idx fmt ++ " already exists, skipping download.")%string].
Proof.
  intros Hdir Hoid Hex.
  unfold download_from_curl, bind at 1.
  rewrite (makedirs_ok _ _ Hdir). cbv beta iota.
  unfold bind at 1. rewrite (resolve_given _ _ Hoid). cbv beta iota zeta.
  unfold bind at 1. rewrite exists_present. 2: apply present_set_dirs, Hex. cbv beta iota.
  eexists. split; [reflexivity|]. split; reflexivity.
Qed.

Lemma yt_target (dir oid fmt : string) (idx : option Z) :
  oid <> ""%string ->
  (Py.path_join dir (stem oid idx) ++ "." ++ fmt)%string = dest_path dir oid idx fmt.
Proof. intros H. unfold dest_path. apply join_append, stem_nonempty, H. Qed.

Lemma yt_existing (w : world) (url fmt dir oid : string) (idx : option Z) :
  dir <> ""%string -> oid <> ""%string ->
  w_files w !! dest_path dir oid idx fmt <> None \/ dest_path dir oid idx fmt ∈ w_dirs w ->
  if w_ffmpeg w then
    exists w', download_from_yt url fmt dir (Some oid) idx w =
      (Ok (dest_path dir oid idx fmt, false), w') /\ w_files w' = w_files w /\
      w_log w' = w_log w ++ [EPrint ("File " ++ dest_path dir oid idx fmt ++ " already exists, skipping download.")%string]
  else
    exists w', download_from_yt url fmt dir (Some oid) idx w = (Exc RuntimeError, w') /\
      w_files w' = w_files w /\ w_log w' = w_log w.
Proof.
  intros Hdir Hoid Hex.
  destruct (w_ffmpeg w) eqn:Hff;
    unfold download_from_yt, bind at 1;
    rewrite (makedirs_ok _ _ Hdir); cbv beta iota;
    unfold bind at 1, gets at 1; cbv beta iota;
    change (w_ffmpeg (set_dirs ({[dir]} ∪ w_dirs w) w)) with (w_ffmpeg w);
    rewrite Hff; cbn [negb]; cbv beta iota.
  - unfold bind at 1. rewrite (resolve_given _ _ Hoid). cbv beta iota zeta.
    rewrite (yt_target _ _ _ _ Hoid).
    unfold bind at 1. rewrite exists_present. 2: apply present_set_dirs, Hex. cbv beta iota.
    eexists. split; [reflexivity|]. split; reflexivity.
  - eexists. split; [reflexivity|]. split; reflexivity.
Qed.

(** C3 (amended): when the destination [dest_path destDir outputId
    audioIndex format] already exists, as a file or as a directory (with
    [destDir] and [outputId] non-empty), the Cloud-Drive adapter (for a URL
    containing '/') and the Generic-HTTP adapter (for any URL) return that
    path with [fetched = false], log only the skip message and change no
    file; the Video-Host adapter does the same when ffmpeg is installed,
    and otherwise raises RuntimeError before the check, again touching
    nothing.  So once a fetch has created the destination, every identical
    later call returns [fetched = false] and leaves the file as it is. *)
Theorem fetch_skips_existing (w : world) (url fmt dir oid : string) (idx : option Z)
    (Hdir : dir <> ""%string) (Hoid : oid <> ""%string)
    (Hex : w_files w !! dest_path dir oid idx fmt <> None \/ dest_path dir oid idx fmt ∈ w_dirs w) :
  let d := dest_path dir oid idx fmt in
  let skip := EPrint ("File " ++ d ++ " already exists, skipping download.")%string in
  (Py.contains "/" url = true ->
   exists w', download_from_google_drive url fmt dir (Some oid) idx w = (Ok (d, false), w') /\
              w_files w' = w_files w /\ w_log w' = w_log w ++ [skip]) /\
  (exists w', download_from_curl url fmt dir (Some oid) idx w = (Ok (d, false), w') /\
              w_files w' = w_files w /\ w_log w' = w_log w ++ [skip]) /\
  (if w_ffmpeg w then
     exists w', download_from_yt url fmt dir (Some oid) idx w = (Ok (d, false), w') /\
                w_files w' = w_files w /\ w_log w' = w_log w ++ [skip]
   else
     exists w', download_from_yt url fmt dir (Some oid) idx w = (Exc RuntimeError, w') /\
                w_files w' = w_files w /\ w_log w' = w_log w).
Proof.
  cbv zeta. split; [|split].
  - intros Hurl. apply gdrive_existing; assumption.
  - apply curl_existing; assumption.
  - apply yt_existing; assumption.
Qed.

Lemma fetch_skips_existing_witness :
  ("data/audio" <> ""%string /\ "00000000" <> ""%string /\
   w_files clip_world !! dest_path "data/audio" "00000000" (Some 1) "mp3" <> None) /\
  fst (download_from_google_drive "https://drive.google.com/file/d/A/view" "mp3" "data/audio"
         (Some "00000000") (Some 1) clip_world) = Ok ("data/audio/00000000_1.mp3"%string, false) /\
  fst (download_from_curl "http://example.com/a.mp3" "mp3" "data/audio" (Some "00000000") (Some 1)
         (set_files ∅ (set_dirs {["data/audio/00000000_1.mp3"%string]} clip_world)))
    = Ok ("data/audio/00000000_1.mp3"%string, false).
Proof.
  assert (Hd : "data/audio" <> ""%string) by discriminate.
  assert (Ho : "00000000" <> ""%string) by discriminate.
  assert (He : w_files clip_world !! dest_path "data/audio" "00000000" (Some 1) "mp3" <> None).
  { assert (E : w_files clip_world !! dest_path "data/audio" "00000000" (Some 1) "mp3" =
                Some (Audio (repeat 0 (Z.to_nat 60000)))) by reflexivity.
    rewrite E. discriminate. }
  split; [auto|]. split.
  - destruct (fetch_skips_existing clip_world "https://drive.google.com/file/d/A/view" "mp3"
                "data/audio" "00000000" (Some 1) Hd Ho (or_introl He)) as [Hg _].
    destruct (Hg eq_refl) as [w' [E _]]. rewrite E. reflexivity.
  - destruct (fetch_skips_existing (set_files ∅ (set_dirs {["data/audio/00000000_1.mp3"%string]} clip_world))
                "http://example.com/a.mp3" "mp3" "data/audio" "00000000" (Some 1) Hd Ho)
      as [_ [[w' [E _]] _]].
    + right. vm_compute. set_solver.
    + rewrite E. reflexivity.
Defined.

(** C3 (counterexample): on a host without ffmpeg the Video-Host adapter
    raises even though the destination already exists. *)
Lemma yt_existing_without_ffmpeg :
  fst (download_from_yt "https://youtu.be/abc" "mp3" "data/audio" (Some "00000000") (Some 1)
         (set_files (w_files clip_world) no_ffmpeg_world)) = Exc RuntimeError /\
  w_files (set_files (w_files clip_world) no_ffmpeg_world) !! "data/audio/00000000_1.mp3"%string <> None.
Proof. split; [reflexivity | discriminate]. Qed.

(* ------------------------------------------------------------------ *)
(** ** Cloud-Drive retries *)

Definition retry_msg : event := EPrint "Retrying download from Google Drive".

Lemma gd_loop_exhausted (fid : string) (w : world) :
  (forall k, (k < 5)%nat -> w_gdown w fid k = None) ->
  gd_loop fid (seq 0 5) w =
  (Ok (inr (""%string, false)),
   fold_left (fun w e => add_event e w)
     [EGdown fid; ESleep 3 0 1; retry_msg; EGdown fid; ESleep 9 0 1;
      retry_msg; EGdown fid; ESleep 27 0 1; retry_msg; EGdown fid; ESleep 81 0 1;
      retry_msg; EGdown fid; EPrint "Failed to download after 5 attempts"] w).
Proof.
  intros H.
  assert (H0 := H 0%nat ltac:(lia)). assert (H1 := H 1%nat ltac:(lia)).
  assert (H2 := H 2%nat ltac:(lia)). assert (H3 := H 3%nat ltac:(lia)).
  assert (H4 := H 4%nat ltac:(lia)).
  unfold gd_loop, gdown_download, try_except, bind, log, modify, gets, ret, raise; cbn.
  rewrite H0; cbn. rewrite H1; cbn. rewrite H2; cbn. rewrite H3; cbn. rewrite H4; cbn.
  reflexivity.
Qed.

Lemma exists_false (p : string) (w : world) :
  w_files w !! p = None -> p ∉ w_dirs w -> path_exists p w = (Ok false, w).
Proof.
  intros Hf Hd. unfold path_exists, gets. rewrite Hf, bool_decide_false by exact Hd.
  reflexivity.
Qed.

Lemma add_events_log (es : list event) (w : world) :
  w_log (fold_left (fun w e => add_event e w) es w) = w_log w ++ es /\
  w_files (fold_left (fun w e => add_event e w) es w) = w_files w.
Proof.
  revert w. induction es as [|e es IH]; intros w; cbn.
  - rewrite app_nil_r. split; reflexivity.
  - destruct (IH (add_event e w)) as [IHl IHf]. rewrite IHl, IHf. cbn.
    rewrite <- app_assoc. split; reflexivity.
Qed.

(** C7: when every download attempt fails, [download_from_google_drive]
    calls gdown exactly 5 times on the file id, sleeps
    [3^(attempt+1) + random.uniform(0, 1)] seconds after each of the first
    four failures (3, 9, 27 and 81 s plus jitter), reports the failure and
    returns [("", False)] without raising and without writing any file.
    ([random.uniform(0, 1)] is [random.random()], in [[0,1)].) *)
Theorem gdrive_retry_exhaustion (w : world) (url fmt dir oid fid : string) (idx : option Z)
    (Hdir : dir <> ""%string) (Hoid : oid <> ""%string)
    (Hfid : Py.index (Py.split "/" url) (-2) = Some fid)
    (Hnf : w_files w !! dest_path dir oid idx fmt = None)
    (Hnd : dest_path dir oid idx fmt ∉ {["tmp"%string]} ∪ ({[dir]} ∪ w_dirs w))
    (Hfail : forall k, (k < 5)%nat -> w_gdown w fid k = None) :
  exists w', download_from_google_drive url fmt dir (Some oid) idx w = (Ok (""%string, false), w') /\
    w_files w' = w_files w /\
    w_log w' = w_log w ++
      [EGdown fid; ESleep 3 0 1; retry_msg; EGdown fid; ESleep 9 0 1;
       retry_msg; EGdown fid; ESleep 27 0 1; retry_msg; EGdown fid; ESleep 81 0 1;
       retry_msg; EGdown fid; EPrint "Failed to download after 5 attempts"].
Proof.
  unfold download_from_google_drive, bind at 1.
  rewrite (makedirs_ok _ _ Hdir). cbv beta iota.
  unfold bind at 1. rewrite (resolve_given _ _ Hoid). cbv beta iota.
  unfold bind at 1. unfold lift_opt at 1. rewrite Hfid. unfold ret at 1. cbv beta iota zeta.
  unfold bind at 1. rewrite (makedirs_ok "tmp"). 2: discriminate. cbv beta iota.
  unfold bind at 1. rewrite exists_false; [| exact Hnf | exact Hnd]. cbv beta iota.
  unfold bind at 1. rewrite gd_loop_exhausted by exact Hfail. cbv beta iota.
  eexists. split; [reflexivity|].
  destruct (add_events_log
              [EGdown fid; ESleep 3 0 1; retry_msg; EGdown fid; ESleep 9 0 1;
               retry_msg; EGdown fid; ESleep 27 0 1; retry_msg; EGdown fid; ESleep 81 0 1;
               retry_msg; EGdown fid; EPrint "Failed to download after 5 attempts"]
              (set_dirs ({["tmp"%string]} ∪ w_dirs (set_dirs ({[dir]} ∪ w_dirs w) w))
                 (set_dirs ({[dir]} ∪ w_dirs w) w))) as [Hl Hf].
  rewrite Hl, Hf. split; reflexivity.
Qed.

Lemma gdrive_retry_exhaustion_witness :
  fst (download_from_google_drive "https://drive.google.com/file/d/B/view" "mp3" "data/audio"
         (Some "00000000") (Some 2) drive_world) = Ok (""%string, false).
Proof.
  destruct (gdrive_retry_exhaustion drive_world "https://drive.google.com/file/d/B/view"
              "mp3" "data/audio" "00000000" "B" (Some 2)) as [w' [E _]].
  - discriminate.
  - discriminate.
  - reflexivity.
  - reflexivity.
  - vm_compute. intros Hin. set_solver.
  - intros k _. reflexivity.
  - rewrite E. reflexivity.
Defined.

(* ------------------------------------------------------------------ *)
(** ** Windowing *)

Lemma crop_audio_run (w : world) (p : string) (a : list Z) (s e : Z) (fmt : string)
    (mx : Z) (need : bool) :
  w_files w !! p = Some (Audio a) ->
  let s' := if s <? 0 then 0 else s in
  let e' := if (e <? 0) || (mx <? e - s') then Z.max (s' + mx) (Z.of_nat (length a)) else e in
  crop_audio (PyStr p) s e fmt mx need w =
    (Ok (PyStr p, s', e'),
     if need then add_event (EWrite p) (set_files (<[p := Audio (seg_slice a s' e')]> (w_files w)) w)
     else w).
Proof.
  intros Hp. unfold crop_audio, from_file, bind, gets. rewrite Hp.
  destruct need; reflexivity.
Qed.

Lemma sc_step_run (w : world) (dir odir path : string) (a : list Z) (s e : Z) :
  w_files w !! Py.path_join dir (sc_base path) = Some (Audio a) ->
  let n := Z.of_nat (length a) in
  let s' := if s <? 0 then 0 else s in
  let e1 := if n <? e then n else e in
  let e' := if (e1 <? 0) || (MAX_AUDIO_LENGTH_SC <? e1 - s') then Z.min (s' + MAX_AUDIO_LENGTH_SC) n else e1 in
  fst (sc_step false dir odir path s e w) = Ok (Some (s', e')).
Proof.
  intros Hp.
  unfold sc_step, from_file, bind, gets, log, modify, ret, export, write_file.
  rewrite Hp. cbv beta iota zeta.
  destruct (s <? 0), (Z.of_nat (length a) <? e); cbn [negb andb fst];
    destruct (_ || _); reflexivity.
Qed.

Lemma crop_bounds_common (a : list Z) (s e mx : Z) :
  let s' := if s <? 0 then 0 else s in
  let e' := if (e <? 0) || (mx <? e - s') then Z.max (s' + mx) (Z.of_nat (length a)) else e in
  s' = Z.max s 0 /\ (0 <= e -> e - s' <= mx -> e' = e).
Proof.
  cbv zeta. split.
  - destruct (Z.ltb_spec s 0); lia.
  - intros He Hm.
    destruct (Z.ltb_spec e 0); [lia|].
    destruct (Z.ltb_spec mx (e - (if s <? 0 then 0 else s))); [lia|]. reflexivity.
Qed.

(** C1 (code bug): when the requested window is invalid ([endMs < 0], or
    longer than [maxLengthMs]) and the decoded audio runs past [startMs +
    maxLengthMs], [crop_audio] re-derives the end as [max(startMs +
    maxLengthMs, len(audio))], which is the whole decoded length, so the
    window it returns is longer than [maxLengthMs].  The same re-derivation
    in sample_and_crop.py takes [min(start_ms + MAX_AUDIO_LENGTH,
    len(audio))] and stays within both bounds. *)
Theorem crop_invalid_window_unbounded (w : world) (p : string) (a : list Z) (s e : Z) (fmt : string)
    (mx : Z) (need : bool) (dir odir path : string)
    (Hp : w_files w !! p = Some (Audio a))
    (Hsave : w_files w !! Py.path_join dir (sc_base path) = Some (Audio a))
    (Hs : 0 <= s) (He : e < 0 \/ mx < e - s) (Hlong : s + mx < Z.of_nat (length a)) :
  (exists w', crop_audio (PyStr p) s e fmt mx need w = (Ok (PyStr p, s, Z.of_nat (length a)), w') /\
     mx < Z.of_nat (length a) - s) /\
  (e < 0 -> fst (sc_step false dir odir path s e w) =
     Ok (Some (s, Z.min (s + MAX_AUDIO_LENGTH_SC) (Z.of_nat (length a))))).
Proof.
  assert (Hs0 : (if s <? 0 then 0 else s) = s) by (destruct (Z.ltb_spec s 0); lia).
  split.
  - rewrite (crop_audio_run _ _ _ _ _ _ _ _ Hp). cbv zeta. rewrite Hs0.
    assert (Hc : ((e <? 0) || (mx <? e - s))%bool = true).
    { destruct He as [He|He].
      - apply Z.ltb_lt in He. rewrite He. reflexivity.
      - apply Z.ltb_lt in He. rewrite He. apply orb_true_r. }
    rewrite Hc, Z.max_r by lia. eexists. split; [reflexivity|lia].
  - intros Hn. rewrite (sc_step_run _ _ _ _ _ _ _ Hsave). cbv zeta. rewrite Hs0.
    assert (Hc : (Z.of_nat (length a) <? e) = false) by (apply Z.ltb_ge; lia).
    rewrite Hc. cbv iota.
    assert (Hc' : (e <? 0) = true) by (apply Z.ltb_lt; lia).
    rewrite Hc'. reflexivity.
Qed.

Lemma crop_invalid_window_unbounded_witness :
  fst (crop_audio (PyStr "data/audio/00000000_1.mp3") 0 (-1) "mp3" 15000 true clip_world) =
    Ok (PyStr "data/audio/00000000_1.mp3", 0, 60000) /\
  fst (sc_step false "data/audio" "data/new" "00000000_1.mp3" 0 (-1) clip_world) = Ok (Some (0, 30000)).
Proof.
  destruct (crop_invalid_window_unbounded clip_world "data/audio/00000000_1.mp3"
              (repeat 0 (Z.to_nat 60000)) 0 (-1) "mp3" 15000 true "data/audio" "data/new"
              "00000000_1.mp3") as [[w' [E _]] Hsc].
  - reflexivity.
  - reflexivity.
  - lia.
  - left. lia.
  - vm_compute. reflexivity.
  - split.
    + rewrite E. vm_compute. reflexivity.
    + rewrite (Hsc ltac:(lia)). vm_compute. reflexivity.
Defined.




(* ------------------------------------------------------------------ *)
(** ** Failure handling of the adapters and orchestrators *)

(** C8: curl cannot reach the host (exit status 6, no file written), yet
    [download_from_curl] reports nothing and returns the destination with
    [fetched = True]. *)
Theorem curl_failure_returns_success :
  let '(r, w') := download_from_curl "http://unreachable.invalid/clip.mp3" "mp3" "data/audio"
                    (Some "00000000") (Some 1) offline_world in
  r = Ok ("data/audio/00000000_1.mp3"%string, true) /\
  w_files w' !! "data/audio/00000000_1.mp3"%string = None /\
  w_log w' = [EShell "curl -sL http://unreachable.invalid/clip.mp3 -o data/audio/00000000_1.mp3"].
Proof. vm_compute. split; [reflexivity | split; reflexivity]. Qed.

(** An entry with three Drive references; the host serves "A" and "C" and
    never "B". *)
Definition three_drive_row : row :=
  [("link_1", "https://drive.google.com/file/d/A/view"); ("start_1", "00:00:05"); ("end_1", "00:00:20");
   ("link_2", "https://drive.google.com/file/d/B/view"); ("start_2", ""); ("end_2", "");
   ("link_3", "https://drive.google.com/file/d/C/view"); ("start_3", ""); ("end_3", "")]%string.

(** The same shape with a YouTube first reference. *)
Definition yt_first_row : row :=
  [("link_1", "https://youtu.be/abc"); ("start_1", ""); ("end_1", "");
   ("link_2", "https://drive.google.com/file/d/A/view"); ("start_2", ""); ("end_2", "");
   ("link_3", "https://drive.google.com/file/d/C/view"); ("start_3", ""); ("end_3", "")]%string.

(** C2: on the three-reference entry, the orchestrator fetches "A" once,
    hands the adapter's [(path, True)] tuple to [crop_audio], and the run
    aborts with pydub's error: "B" and "C" are never requested and no line
    is written.  On a host without ffmpeg and a YouTube first reference,
    every iteration fetches [link_1] again (the index is not passed, and
    each failure is reported for link 1), so the Drive references 2 and 3
    are never requested and the entry is written with an empty [audio]
    list. *)
Theorem json_entry_three_refs :
  (let '(r, w') := json_main json_args [three_drive_row] drive_world in
   r = Exc AttributeError /\
   w_log w' = [EGdown "A"; EWrite "tmp/A.mp3"; EWrite "data/audio/00000000_1.mp3"]%string) /\
  (let '(r, w') := json_main json_args [yt_first_row] no_ffmpeg_world in
   r = Ok tt /\
   Forall (fun e => match e with EGdown _ => False | _ => True end) (w_log w') /\
   exists fields, w_log w' =
     [EPrint "Error downloading audio for 00000000 (link 1)";
      EPrint "Error downloading audio for 00000000 (link 1)";
      EPrint "Error downloading audio for 00000000 (link 1)"; EAppendRow fields []]).
Proof.
  split.
  - vm_compute. split; reflexivity.
  - vm_compute. split; [reflexivity|]. split.
    + repeat constructor.
    + eexists. reflexivity.
Qed.

(** C5: process_audio.py on a host without ffmpeg: the RuntimeError of the
    Video-Host adapter for the first row escapes [main]; the Drive row after
    it is never fetched and no output is written. *)
Theorem csv_missing_ffmpeg_aborts :
  let '(r, w') := csv_main json_args ["link"; "start"; "end"]%string
                    [[("link", CStr "https://youtu.be/abc"); ("start", CNaN); ("end", CNaN)];
                     [("link", CStr "https://drive.google.com/file/d/A/view"); ("start", CNaN); ("end", CNaN)]]%string
                    no_ffmpeg_world in
  r = Exc RuntimeError /\ w_log w' = [].
Proof. vm_compute. split; reflexivity. Qed.

(* ------------------------------------------------------------------ *)
(** ** Further properties of the code *)

Lemma digits_uint (d : Decimal.uint) (acc : Z) :
  Py.digits_val true acc (list_ascii_of_string (Py.uint_to_string d)) = Some (uint_horner acc d).
Proof. revert acc; induction d; intros acc; simpl; try reflexivity; apply IHd. Qed.

Lemma horner_pos (d : Decimal.uint) (acc : positive) :
  uint_horner (Zpos acc) d = Zpos (Pos.of_uint_acc d acc).
Proof.
  revert acc; induction d; intros acc; simpl; try reflexivity; rewrite <- IHd; f_equal; lia.
Qed.

Lemma horner_zero (d : Decimal.uint) : uint_horner 0 d = Z.of_N (Pos.of_uint d).
Proof.
  induction d; simpl; try reflexivity; try exact IHd; apply horner_pos.
Qed.

Lemma digits_all (d : Decimal.uint) :
  Forall (fun c => Py.is_space c = false /\ c <> "-"%char /\ c <> "+"%char)
    (list_ascii_of_string (Py.uint_to_string d)).
Proof. induction d; simpl; constructor; auto; repeat split; discriminate. Qed.

Lemma strip_l_id (l : list ascii) :
  Forall (fun c => Py.is_space c = false) l -> Py.strip_l l = l.
Proof.
  intros H. unfold Py.strip_l.
  assert (Hl : forall l', Forall (fun c => Py.is_space c = false) l' -> Py.lstrip l' = l').
  { intros [|c r] Hf; simpl; [reflexivity|]. inversion Hf; subst. rewrite H2. reflexivity. }
  rewrite (Hl l H), Hl, rev_involutive; [reflexivity|]. apply Forall_rev, H.
Qed.

Lemma uint_value (p : positive) : uint_horner 0 (Pos.to_uint p) = Zpos p.
Proof. rewrite horner_zero, DecimalPos.Unsigned.of_to. reflexivity. Qed.

Lemma int_of_str_int (z : Z) : Py.int_of_string (Py.str_int z) = Some z.
Proof.
  unfold Py.int_of_string, Py.str_int.
  destruct z as [|p|p]; [reflexivity| |].
  - simpl Z.to_int. pose proof (digits_all (Pos.to_uint p)) as HF.
    pose proof (DecimalPos.Unsigned.to_uint_nonnil p) as HN.
    rewrite strip_l_id by (eapply Forall_impl; [exact HF|]; simpl; tauto).
    rewrite <- (uint_value p).
    destruct (Pos.to_uint p); [congruence| ..]; simpl; apply digits_uint.
  - simpl Z.to_int. pose proof (digits_all (Pos.to_uint p)) as HF.
    pose proof (DecimalPos.Unsigned.to_uint_nonnil p) as HN.
    change (list_ascii_of_string (String "-" (Py.uint_to_string (Pos.to_uint p))))
      with ("-"%char :: list_ascii_of_string (Py.uint_to_string (Pos.to_uint p))).
    rewrite strip_l_id by (constructor; [reflexivity|]; eapply Forall_impl; [exact HF|]; simpl; tauto).
    change (Zneg p) with (Z.opp (Zpos p)). rewrite <- (uint_value p).
    simpl Ascii.eqb. cbv iota.
    destruct (Pos.to_uint p); [congruence| ..]; simpl; rewrite digits_uint; reflexivity.
Qed.

Lemma list_ascii_app (a b : string) :
  list_ascii_of_string (String.append a b) = list_ascii_of_string a ++ list_ascii_of_string b.
Proof. induction a as [|x a IH]; [reflexivity|]. change (x :: list_ascii_of_string (String.append a b) = x :: list_ascii_of_string a ++ list_ascii_of_string b). rewrite IH. reflexivity. Qed.

Lemma split_l_sep (c : ascii) (l1 l2 : list ascii) :
  Forall (fun x => x <> c) l1 -> Py.split_l c (l1 ++ c :: l2) = l1 :: Py.split_l c l2.
Proof.
  induction 1 as [|x r Hx _ IH]; simpl.
  - rewrite Ascii.eqb_refl. reflexivity.
  - rewrite IH. destruct (Ascii.eqb_spec x c); [contradiction|reflexivity].
Qed.

Lemma split_l_none (c : ascii) (l : list ascii) :
  Forall (fun x => x <> c) l -> Py.split_l c l = [l].
Proof.
  induction 1 as [|x r Hx _ IH]; simpl; [reflexivity|].
  rewrite IH. destruct (Ascii.eqb_spec x c); [contradiction|reflexivity].
Qed.

Lemma str_int_plain (z : Z) : Forall plain_char (list_ascii_of_string (Py.str_int z)).
Proof.
  assert (Hd : forall d, Forall plain_char (list_ascii_of_string (Py.uint_to_string d))).
  { induction d; simpl; [constructor|..]; (constructor; [split; [reflexivity|discriminate]|exact IHd]). }
  unfold Py.str_int. destruct (Z.to_int z); simpl; [apply Hd|].
  constructor; [split; [reflexivity|discriminate]|apply Hd].
Qed.

Lemma str_int_nonempty (z : Z) : Py.str_int z <> ""%string.
Proof.
  unfold Py.str_int. destruct z as [|p|p]; simpl; try discriminate.
  pose proof (DecimalPos.Unsigned.to_uint_nonnil p).
  destruct (Pos.to_uint p); simpl; congruence.
Qed.

Lemma strip_plain (s : string) :
  Forall (fun c => Py.is_space c = false) (list_ascii_of_string s) -> Py.strip s = s.
Proof.
  intros H. unfold Py.strip. rewrite strip_l_id by exact H.
  apply string_of_list_ascii_of_string.
Qed.

Lemma str_int_nospace (z : Z) :
  Forall (fun c => Py.is_space c = false) (list_ascii_of_string (Py.str_int z)).
Proof. eapply Forall_impl; [apply str_int_plain|]. intros c [Hc _]. exact Hc. Qed.

Lemma split_colon3 (a b c : string) :
  Forall plain_char (list_ascii_of_string a) -> Forall plain_char (list_ascii_of_string b) ->
  Forall plain_char (list_ascii_of_string c) ->
  Py.split ":" (a ++ ":" ++ b ++ ":" ++ c)%string = [a; b; c].
Proof.
  intros Ha Hb Hc. unfold Py.split.
  rewrite !list_ascii_app. simpl list_ascii_of_string at 2 4.
  simpl app.
  rewrite split_l_sep, split_l_sep, split_l_none.
  - simpl. rewrite !string_of_list_ascii_of_string. reflexivity.
  - eapply Forall_impl; [exact Hc|]. intros x [_ Hx]; exact Hx.
  - eapply Forall_impl; [exact Hb|]. intros x [_ Hx]; exact Hx.
  - eapply Forall_impl; [exact Ha|]. intros x [_ Hx]; exact Hx.
Qed.

Lemma split_colon2 (a b : string) :
  Forall plain_char (list_ascii_of_string a) -> Forall plain_char (list_ascii_of_string b) ->
  Py.split ":" (a ++ ":" ++ b)%string = [a; b].
Proof.
  intros Ha Hb. unfold Py.split.
  rewrite !list_ascii_app. change (list_ascii_of_string ":") with [":"%char]. simpl app.
  rewrite split_l_sep, split_l_none.
  - simpl. rewrite !string_of_list_ascii_of_string. reflexivity.
  - eapply Forall_impl; [exact Hb|]. intros x [_ Hx]; exact Hx.
  - eapply Forall_impl; [exact Ha|]. intros x [_ Hx]; exact Hx.
Qed.

Lemma nonempty_app (a b : string) : a <> ""%string -> String.eqb (a ++ b) "" = false.
Proof. destruct a; [congruence|reflexivity]. Qed.

(** [timestamp_to_ms] reads back what [str] renders: for all integers
    h, m and s, negative ones included (no range is checked), the text
    "h:m:s" gives [(h*3600 + m*60 + s)*1000] and "m:s" gives
    [(m*60 + s)*1000], without raising or printing. *)
Theorem timestamp_round_trip (h m s : Z) (w : world) :
  timestamp_to_ms (CStr (Py.str_int h ++ ":" ++ Py.str_int m ++ ":" ++ Py.str_int s)) w
    = (Ok ((h * 3600 + m * 60 + s) * 1000), w) /\
  timestamp_to_ms (CStr (Py.str_int m ++ ":" ++ Py.str_int s)) w = (Ok ((m * 60 + s) * 1000), w).
Proof.
  pose proof (str_int_nospace h) as Hh. pose proof (str_int_nospace m) as Hm.
  pose proof (str_int_nospace s) as Hs.
  assert (Hc : Forall (fun c => Py.is_space c = false) (list_ascii_of_string ":")) by
    (repeat constructor).
  split; unfold timestamp_to_ms.
  - rewrite strip_plain by (rewrite !list_ascii_app; repeat apply Forall_app_2; assumption).
    rewrite nonempty_app by apply str_int_nonempty.
    rewrite split_colon3 by apply str_int_plain. simpl mapM.
    rewrite !int_of_str_int. reflexivity.
  - rewrite strip_plain by (rewrite !list_ascii_app; repeat apply Forall_app_2; assumption).
    rewrite nonempty_app by apply str_int_nonempty.
    rewrite split_colon2 by apply str_int_plain. simpl mapM.
    rewrite !int_of_str_int. reflexivity.
Qed.

(** On a decodable file and a window [0 <= start <= end <= len(audio)] of
    at most [max_length] ms, [crop_audio] with [need_crop] returns the
    window unchanged and overwrites the file with exactly the
    [end - start] ms of audio that begin at [start]. *)
Theorem crop_audio_valid_window (w : world) (p : string) (a : list Z) (s e : Z) (fmt : string) (mx : Z)
    (Hp : w_files w !! p = Some (Audio a)) (Hs : 0 <= s) (Hse : s <= e)
    (He : e <= Z.of_nat (length a)) (Hm : e - s <= mx) :
  exists w', crop_audio (PyStr p) s e fmt mx true w = (Ok (PyStr p, s, e), w') /\
    w_files w' = <[p := Audio (firstn (Z.to_nat (e - s)) (skipn (Z.to_nat s) a))]> (w_files w) /\
    length (firstn (Z.to_nat (e - s)) (skipn (Z.to_nat s) a)) = Z.to_nat (e - s).
Proof.
  rewrite (crop_audio_run _ _ _ _ _ _ _ _ Hp). cbv zeta.
  destruct (Z.ltb_spec s 0); [lia|].
  destruct (Z.ltb_spec e 0); [lia|]. destruct (Z.ltb_spec mx (e - s)); [lia|]. cbn [orb].
  eexists. split; [reflexivity|]. split.
  - cbn. unfold seg_slice. cbv zeta.
    rewrite (Z.min_l e) by lia. rewrite (Z.min_l s) by lia.
    destruct (Z.ltb_spec e 0); [lia|]. destruct (Z.ltb_spec s 0); [lia|]. reflexivity.
  - rewrite length_firstn, length_skipn. lia.
Qed.

Lemma crop_audio_valid_window_witness :
  fst (crop_audio (PyStr "data/audio/00000000_1.mp3") 5000 20000 "mp3" 30000 true clip_world) =
    Ok (PyStr "data/audio/00000000_1.mp3", 5000, 20000).
Proof.
  destruct (crop_audio_valid_window clip_world "data/audio/00000000_1.mp3" (repeat 0 (Z.to_nat 60000))
              5000 20000 "mp3" 30000) as [w' [E _]]; [reflexivity|lia|lia|vm_compute; discriminate|lia|].
  rewrite E. reflexivity.
Defined.

(** When [crop_audio] returns normally, no file other than its
    [audio_path] has changed. *)
Theorem crop_audio_frame (o : pyobj) (s e : Z) (fmt : string) (mx : Z) (need : bool) (w : world) :
  let '(r, w') := crop_audio o s e fmt mx need w in
  forall x, r = Ok x -> forall q, o <> PyStr q -> w_files w' !! q = w_files w !! q.
Proof.
  destruct o as [p| |]; cbn; [|intros x Hx; discriminate..].
  unfold crop_audio, from_file, bind, gets, ret, raise.
  destruct (w_files w !! p) as [[a|]|] eqn:Hp; cbn; try (intros x Hx; discriminate).
  destruct need; cbn; intros x _ q Hq.
  - rewrite lookup_insert_ne; [reflexivity|]. congruence.
  - reflexivity.
Qed.

(** In [--verify_only] mode an iteration of sample_and_crop.py decodes
    nothing, writes no file and produces no record, whatever the window. *)
Theorem sc_step_verify_only (dir odir path : string) (s e : Z) (w : world) :
  let '(r, w') := sc_step true dir odir path s e w in
  r = Ok None /\ w_files w' = w_files w /\ w_dirs w' = w_dirs w.
Proof.
  unfold sc_step, bind, ret, log, modify.
  destruct (s <? 0); cbn [negb andb];
    destruct (_ || _); cbn; repeat split.
Qed.

(** With ffmpeg installed and the destination absent, [download_from_yt]
    calls yt-dlp exactly once: on success the destination holds the
    download and [(destination, True)] is returned; on failure it prints
    the failure and returns [("", False)] (no retry). *)
Theorem yt_absent_single_attempt (w : world) (url fmt dir oid : string) (idx : option Z)
    (Hff : w_ffmpeg w = true) (Hdir : dir <> ""%string) (Hoid : oid <> ""%string)
    (Hnf : w_files w !! dest_path dir oid idx fmt = None)
    (Hnd : dest_path dir oid idx fmt ∉ {[dir]} ∪ w_dirs w) :
  exists w', w_log w' = w_log w ++ EYtDownload url ::
                match w_yt w url with
                | Some _ => [EWrite (dest_path dir oid idx fmt)]
                | None => [EPrint "Download failed"]
                end /\
    match w_yt w url with
    | Some b => download_from_yt url fmt dir (Some oid) idx w = (Ok (dest_path dir oid idx fmt, true), w') /\
                w_files w' = <[dest_path dir oid idx fmt := b]> (w_files w)
    | None => download_from_yt url fmt dir (Some oid) idx w = (Ok (""%string, false), w')
    end.
Proof.
  destruct (w_yt w url) as [b|] eqn:Hy;
  unfold download_from_yt, bind at 1;
  rewrite (makedirs_ok _ _ Hdir); cbv beta iota;
  unfold bind at 1, gets at 1; cbv beta iota;
  change (w_ffmpeg (set_dirs ({[dir]} ∪ w_dirs w) w)) with (w_ffmpeg w);
  rewrite Hff; cbn [negb]; cbv beta iota;
  unfold bind at 1; rewrite (resolve_given _ _ Hoid); cbv beta iota zeta;
  rewrite (yt_target _ _ _ _ Hoid);
  unfold bind at 1; rewrite exists_false; try exact Hnf; try exact Hnd; cbv beta iota;
  unfold try_except, bind, log, modify, gets, ret, raise, write_file; cbn;
  rewrite Hy; cbn;
  (eexists; split; [|first [split; reflexivity | reflexivity]]; cbn; rewrite <- ?app_assoc; reflexivity).
Qed.

Lemma yt_absent_single_attempt_witness :
  fst (download_from_yt "https://youtu.be/abc" "mp3" "data/audio" (Some "00000000") (Some 1) drive_world)
    = Ok ("data/audio/00000000_1.mp3"%string, true).
Proof.
  destruct (yt_absent_single_attempt drive_world "https://youtu.be/abc" "mp3" "data/audio"
              "00000000" (Some 1)) as [w' [_ H]].
  - reflexivity.
  - discriminate.
  - discriminate.
  - reflexivity.
  - vm_compute. intros Hin. set_solver.
  - change (w_yt drive_world "https://youtu.be/abc") with (Some (Audio (repeat 0 (Z.to_nat 40000)))) in H.
    cbv iota in H. destruct H as [E _]. rewrite E. reflexivity.
Defined.

Lemma resolve_frame (o : option string) (w : world) :
  exists s w', resolve_output_id o w = (Ok s, w') /\ w_files w' = w_files w /\
    w_log w' = w_log w /\ w_dirs w' = w_dirs w.
Proof.
  unfold resolve_output_id, uuid4_hex, bind, gets, modify, ret.
  destruct o as [s|]; [destruct (String.eqb s "")|]; cbn; eauto 10.
Qed.

Lemma split_no_sep (c : ascii) (s : string) :
  ~ In c (list_ascii_of_string s) -> Py.split c s = [s].
Proof.
  intros H. unfold Py.split. rewrite split_l_none.
  - cbn. rewrite string_of_list_ascii_of_string. reflexivity.
  - apply List.Forall_forall. intros x Hx E. apply H. rewrite <- E. exact Hx.
Qed.

(** A Drive URL without '/' makes [url.split("/")[-2]] raise IndexError
    before gdown is called: no file is written and nothing is printed. *)
Theorem gdrive_url_without_slash (w : world) (url fmt dir : string) (oid : option string) (idx : option Z)
    (Hdir : dir <> ""%string) (Hurl : ~ In "/"%char (list_ascii_of_string url)) :
  let '(r, w') := download_from_google_drive url fmt dir oid idx w in
  r = Exc IndexError /\ w_files w' = w_files w /\ w_log w' = w_log w.
Proof.
  destruct (resolve_frame oid (set_dirs ({[dir]} ∪ w_dirs w) w)) as [s [w1 [E [Hf [Hl _]]]]].
  unfold download_from_google_drive, bind at 1.
  rewrite (makedirs_ok _ _ Hdir). cbv beta iota.
  unfold bind at 1. rewrite E. cbv beta iota.
  unfold bind at 1. unfold lift_opt at 1. rewrite (split_no_sep _ _ Hurl). cbn.
  split; [reflexivity|]. rewrite Hf, Hl. split; reflexivity.
Qed.

Lemma gdrive_url_without_slash_witness :
  fst (download_from_google_drive "clip.mp3" "mp3" "data/audio" None None drive_world) = Exc IndexError.
Proof.
  pose proof (gdrive_url_without_slash drive_world "clip.mp3" "mp3" "data/audio" None None
                ltac:(discriminate)
                ltac:(cbn; intros H; repeat (destruct H as [H|H]; [discriminate H|]); exact H)) as H.
  destruct (download_from_google_drive "clip.mp3" "mp3" "data/audio" None None drive_world) as [r w'].
  destruct H as [-> _]. reflexivity.
Defined.

Lemma gd_loop_success (fid name : string) (b : blob) (k : nat) :
  forall m w, (m <= k)%nat -> (k < 5)%nat ->
  (forall i, (k - m <= i < k)%nat -> w_gdown w fid i = None) ->
  w_gdown w fid k = Some (name, b) ->
  exists w', gd_loop fid (seq (k - m) (5 - (k - m))) w = (Ok (inl ("tmp/" ++ name)%string), w') /\
    w_files w' = <[("tmp/" ++ name)%string := b]> (w_files w) /\ w_dirs w' = w_dirs w.
Proof.
  induction m as [|m IH]; intros w Hm Hk Hfail Hok.
  - rewrite Nat.sub_0_r. replace (5 - k)%nat with (S (4 - k)) by lia. cbn [seq gd_loop].
    unfold bind, try_except, gdown_download, log, modify, gets, ret, write_file, raise.
    destruct (0 <? k)%nat; cbn; rewrite Hok; cbn; eexists; split; try reflexivity; split; reflexivity.
  - remember (k - S m)%nat as j eqn:Ej.
    assert (Hj : (k - m)%nat = S j) by lia.
    assert (Hjf : w_gdown w fid j = None) by (apply Hfail; lia).
    replace (5 - j)%nat with (S (5 - S j)) by lia. cbn [seq gd_loop].
    set (w1 := if (0 <? j)%nat then add_event (EPrint "Retrying download from Google Drive") w else w).
    set (w2 := add_event (ESleep (3 ^ (Z.of_nat j + 1)) 0 1) (add_event (EGdown fid) w1)).
    destruct (IH w2) as [w' [E [Hf Hd]]].
    + lia.
    + exact Hk.
    + intros i Hi. subst w2 w1. destruct (0 <? j)%nat; apply Hfail; lia.
    + subst w2 w1. destruct (0 <? j)%nat; exact Hok.
    + rewrite Hj in E. exists w'. split.
      * unfold bind at 1. 
        assert (E1 : (if (0 <? j)%nat then log (EPrint "Retrying download from Google Drive") else ret tt) w = (Ok tt, w1))
          by (subst w1; destruct (0 <? j)%nat; reflexivity).
        rewrite E1. cbv beta iota.
        unfold bind at 1, try_except, gdown_download, log at 1, bind at 1, modify at 1.
        assert (E2 : w_gdown (add_event (EGdown fid) w1) fid j = None)
          by (subst w1; destruct (0 <? j)%nat; exact Hjf).
        unfold bind, gets. rewrite E2. cbn.
        destruct (j =? 4)%nat eqn:E4; [apply Nat.eqb_eq in E4; lia|].
        unfold log, modify, ret. exact E.
      * rewrite Hf, Hd. subst w2 w1. destruct (0 <? j)%nat; split; reflexivity.
Qed.

(** When gdown fails on the first [k < 5] attempts and then delivers
    decodable audio, [download_from_google_drive] returns
    [(destination, True)]; the destination holds that audio and the
    downloaded file under tmp/ is removed. *)
Theorem gdrive_success_after_retries (w : world) (url fmt dir oid fid name : string) (idx : option Z)
    (k : nat) (a : list Z)
    (Hdir : dir <> ""%string) (Hoid : oid <> ""%string)
    (Hfid : Py.index (Py.split "/" url) (-2) = Some fid)
    (Hnf : w_files w !! dest_path dir oid idx fmt = None)
    (Hnd : dest_path dir oid idx fmt ∉ {["tmp"%string]} ∪ ({[dir]} ∪ w_dirs w))
    (Hk : (k < 5)%nat)
    (Hfail : forall i, (i < k)%nat -> w_gdown w fid i = None)
    (Hok : w_gdown w fid k = Some (name, Audio a))
    (Hne : dest_path dir oid idx fmt <> ("tmp/" ++ name)%string) :
  exists w', download_from_google_drive url fmt dir (Some oid) idx w =
    (Ok (dest_path dir oid idx fmt, true), w') /\
    w_files w' = <[dest_path dir oid idx fmt := Audio a]> (delete ("tmp/" ++ name)%string (w_files w)).
Proof.
  unfold download_from_google_drive, bind at 1.
  rewrite (makedirs_ok _ _ Hdir). cbv beta iota.
  unfold bind at 1. rewrite (resolve_given _ _ Hoid). cbv beta iota.
  unfold bind at 1. unfold lift_opt at 1. rewrite Hfid. unfold ret at 1. cbv beta iota zeta.
  unfold bind at 1. rewrite (makedirs_ok "tmp"). 2: discriminate. cbv beta iota.
  unfold bind at 1. rewrite exists_false; [| exact Hnf | exact Hnd]. cbv beta iota.
  destruct (gd_loop_success fid name (Audio a) k k
              (set_dirs ({["tmp"%string]} ∪ w_dirs (set_dirs ({[dir]} ∪ w_dirs w) w))
                 (set_dirs ({[dir]} ∪ w_dirs w) w))) as [w1 [E [Hf _]]].
  - lia.
  - exact Hk.
  - intros i Hi. apply Hfail. lia.
  - exact Hok.
  - rewrite Nat.sub_diag in E. change (5 - 0)%nat with 5%nat in E. unfold bind at 1. rewrite E. cbv beta iota.
    unfold from_file, bind, gets. rewrite Hf, lookup_insert_eq. cbn.
    unfold export, write_file, remove_file, bind, modify, gets, log. cbn.
    rewrite lookup_insert_ne by congruence. cbn. rewrite Hf, lookup_insert_eq. cbn.
    eexists. split; [reflexivity|]. cbn.
    rewrite delete_insert_ne by congruence. rewrite delete_insert_eq. reflexivity.
Qed.

Lemma gdrive_success_after_retries_witness :
  fst (download_from_google_drive "https://drive.google.com/file/d/A/view" "mp3" "data/audio"
         (Some "00000000") (Some 1) flaky_world) = Ok ("data/audio/00000000_1.mp3"%string, true).
Proof.
  destruct (gdrive_success_after_retries flaky_world "https://drive.google.com/file/d/A/view" "mp3"
              "data/audio" "00000000" "A" "A.mp3" (Some 1) 2 (repeat 0 (Z.to_nat 40000))) as [w' [E _]].
  - discriminate.
  - discriminate.
  - reflexivity.
  - reflexivity.
  - vm_compute. intros Hin. set_solver.
  - lia.
  - intros i Hi. destruct i as [|[|]]; [reflexivity|reflexivity|lia].
  - reflexivity.
  - discriminate.
  - rewrite E. reflexivity.
Defined.

Lemma bind_ok_inv {A B} (m : M A) (k : A -> M B) (w w' : world) (v : B) :
  bind m k w = (Ok v, w') -> exists x w1, m w = (Ok x, w1) /\ k x w1 = (Ok v, w').
Proof.
  unfold bind. destruct (m w) as [[x|e] w1]; intros H; [eauto|discriminate].
Qed.

Lemma json_download_ok_shape (r : row) (a : args) (audio_idx : Z) (w w' : world) (o : pyobj) :
  process_audio_download r a audio_idx w = (Ok o, w') -> o = PyNone \/ exists s b, o = PyTuple s b.
Proof.
  unfold process_audio_download, try_except.
  match goal with |- context [match ?m w with _ => _ end] => destruct (m w) as [[v|e] w1] eqn:E end.
  - intros H. injection H as <- <-.
    apply bind_ok_inv in E as [link [w2 [_ E]]].
    apply bind_ok_inv in E as [uid [w3 [_ E]]].
    apply bind_ok_inv in E as [res [w4 [_ E]]].
    unfold ret in E. injection E as <- <-. right. eauto.
  - intros H. apply bind_ok_inv in H as [uid [w2 [_ H]]].
    unfold bind, log, modify, ret in H. injection H as <- _. left. reflexivity.
Qed.

(** [process_audio_download] of process_audio_json.py never raises on a
    row holding [unique_id]: it returns [None] or an adapter's
    [(path, fetched)] tuple.  On a row without [unique_id] it always raises
    KeyError, since its handler's message reads [row['unique_id']] too. *)
Theorem json_download_never_raises (r : row) (a : args) (audio_idx : Z) (w : world) :
  (dict_get "unique_id" r <> None ->
   exists o w', process_audio_download r a audio_idx w = (Ok o, w') /\
     (o = PyNone \/ exists s b, o = PyTuple s b)) /\
  (dict_get "unique_id" r = None ->
   process_audio_download r a audio_idx w = (Exc KeyError, w)).
Proof.
  split.
  - intros Hu. destruct (process_audio_download r a audio_idx w) as [[o|e] w'] eqn:E.
    + exists o, w'. split; [reflexivity|]. eapply json_download_ok_shape. exact E.
    + exfalso. revert E. unfold process_audio_download, try_except.
      destruct (dict_get "unique_id" r) as [uid|] eqn:Hg; [|contradiction].
      match goal with |- match ?m w with _ => _ end = _ -> False => destruct (m w) as [[v|e'] w1] end.
      * discriminate.
      * unfold bind, lift_opt, ret, log, modify. discriminate.
  - intros Hu. unfold process_audio_download, try_except, bind, lift_opt, raise, ret.
    rewrite Hu. destruct (dict_get (key "link" audio_idx) r); reflexivity.
Qed.

Lemma json_download_never_raises_witness :
  (exists o w', process_audio_download [("link_1", "https://youtu.be/abc"); ("unique_id", "00000000")]%string
                  json_args 1 no_ffmpeg_world = (Ok o, w')) /\
  process_audio_download [("link_1", "https://youtu.be/abc")]%string json_args 1 no_ffmpeg_world =
    (Exc KeyError, no_ffmpeg_world).
Proof.
  split.
  - destruct (proj1 (json_download_never_raises
                       [("link_1", "https://youtu.be/abc"); ("unique_id", "00000000")]%string
                       json_args 1 no_ffmpeg_world) ltac:(cbn; discriminate)) as [o [w' [E _]]].
    eauto.
  - exact (proj2 (json_download_never_raises [("link_1", "https://youtu.be/abc")]%string
                    json_args 1 no_ffmpeg_world) eq_refl).
Defined.

Lemma dict_pop_cons (k k1 v1 : string) (r : row) :
  dict_pop k ((k1, v1) :: r) = if String.eqb k k1 then dict_pop k r else (k1, v1) :: dict_pop k r.
Proof. unfold dict_pop, filter. cbn [list_filter fst]. destruct (String.eqb k k1); reflexivity. Qed.

Lemma dict_get_pop (k k' : string) (r : row) :
  dict_get k (dict_pop k' r) = if String.eqb k k' then None else dict_get k r.
Proof.
  induction r as [|[k1 v1] r IH].
  - cbn. destruct (String.eqb k k'); reflexivity.
  - rewrite dict_pop_cons.
    destruct (String.eqb_spec k' k1) as [<-|Hne].
    + rewrite IH. cbn [dict_get]. destruct (String.eqb_spec k k'); reflexivity.
    + cbn [dict_get].
      rewrite IH. destruct (String.eqb_spec k k1) as [->|]; [|reflexivity].
      destruct (String.eqb_spec k1 k'); [congruence|reflexivity].
Qed.

Lemma dict_get_pops (k : string) (ks : list string) (r : row) :
  dict_get k (fold_left (fun acc k' => dict_pop k' acc) ks r) =
  if existsb (String.eqb k) ks then None else dict_get k r.
Proof.
  revert r. induction ks as [|k' ks IH]; intros r; cbn; [reflexivity|].
  rewrite IH, dict_get_pop. destruct (String.eqb k k'), (existsb _ ks); reflexivity.
Qed.

Lemma json_entry_inv (a : args) (idx : Z) (r0 : row) (w w' : world) (u : unit) :
  json_entry a idx r0 w = (Ok u, w') ->
  exists ad w1, json_refs a (json_assign_id idx r0) [1; 2; 3] [] w = (Ok ad, w1) /\
    w' = add_event (EAppendRow (json_output_row idx r0) ad) w1.
Proof.
  unfold json_entry. intros E. apply bind_ok_inv in E as [ad [w1 [E1 E2]]].
  unfold log, modify in E2. injection E2 as _ <-. eauto.
Qed.

(** When an entry of process_audio_json.py completes, the row it appends
    has [unique_id = f"{idx:0>8d}"], the key "audio" (holding the entry's
    asset list, whatever an input "audio" column held), none of the nine
    indexed keys, and every other key with its input value. *)
Theorem json_entry_row_keys (a : args) (idx : Z) (r0 : row) (w : world) :
  match json_entry a idx r0 w with
  | (Ok _, w') => exists fields ad w1, w' = add_event (EAppendRow fields ad) w1 /\
      dict_get "unique_id" fields = Some (Py.pad8 idx) /\
      dict_get "audio" fields = Some ""%string /\
      (forall k, In k indexed_keys -> dict_get k fields = None) /\
      (forall k, ~ In k indexed_keys -> k <> "unique_id"%string -> k <> "audio"%string ->
                 dict_get k fields = dict_get k r0)
  | (Exc _, _) => True
  end.
Proof.
  destruct (json_entry a idx r0 w) as [[u|e] w'] eqn:E; [|exact I].
  apply json_entry_inv in E as [ad [w1 [_ ->]]].
  exists (json_output_row idx r0), ad, w1. split; [reflexivity|].
  unfold json_output_row. split; [|split; [|split]].
  - rewrite dict_get_pops. cbn [existsb indexed_keys]. cbn.
    rewrite dict_get_set_ne by discriminate. apply dict_get_set.
  - rewrite dict_get_pops. cbn [existsb indexed_keys]. cbn. apply dict_get_set.
  - intros k Hk. rewrite dict_get_pops.
    replace (existsb (String.eqb k) indexed_keys) with true; [reflexivity|].
    symmetry. apply existsb_exists. exists k. split; [exact Hk|apply String.eqb_refl].
  - intros k Hk Hu Ha. rewrite dict_get_pops.
    replace (existsb (String.eqb k) indexed_keys) with false.
    + rewrite dict_get_set_ne by exact Ha. apply dict_get_set_ne, Hu.
    + symmetry. apply not_true_iff_false. intros Hx. apply existsb_exists in Hx as [k' [Hin Heq]].
      apply String.eqb_eq in Heq. subst k'. contradiction.
Qed.

Lemma crop_audio_not_str (o : pyobj) (s e : Z) (fmt : string) (mx : Z) (need : bool) (w : world) :
  (forall p, o <> PyStr p) -> crop_audio o s e fmt mx need w = (Exc AttributeError, w).
Proof. intros H. destruct o as [p| |]; [exfalso; exact (H p eq_refl)|reflexivity|reflexivity]. Qed.

Lemma json_refs_keeps (a : args) (r : row) (idxs : list Z) :
  forall ad w ad' w', json_refs a r idxs ad w = (Ok ad', w') -> ad' = ad.
Proof.
  induction idxs as [|i idxs IH]; intros ad w ad' w' H; cbn [json_refs] in H.
  - unfold ret in H. congruence.
  - destruct (dict_get (key "link" i) r) as [l|]; [|eapply IH; exact H].
    destruct (String.eqb l ""); [eapply IH; exact H|].
    apply bind_ok_inv in H as [o [w1 [Ho H]]].
    pose proof (json_download_ok_shape _ _ _ _ _ _ Ho) as Hkind.
    apply bind_ok_inv in H as [s [w2 [_ H]]].
    apply bind_ok_inv in H as [e [w3 [_ H]]].
    destruct Hkind as [->|[sp [b ->]]]; cbn [truthy] in H.
    + eapply IH; exact H.
    + apply bind_ok_inv in H as [c [w4 [Hc _]]].
      rewrite crop_audio_not_str in Hc by discriminate. discriminate.
Qed.

(** When an entry of process_audio_json.py completes, its [audio] list is
    empty: a truthy download result is always a tuple, on which
    [crop_audio] raises. *)
Theorem json_entry_audio_always_empty (a : args) (idx : Z) (r0 : row) (w : world) :
  match json_entry a idx r0 w with
  | (Ok _, w') => exists w1, w' = add_event (EAppendRow (json_output_row idx r0) []) w1
  | (Exc _, _) => True
  end.
Proof.
  destruct (json_entry a idx r0 w) as [[u|e] w'] eqn:E; [|exact I].
  apply json_entry_inv in E as [ad [w1 [E ->]]].
  apply json_refs_keeps in E as ->. eauto.
Qed.

(** A row whose [link_1] to [link_3] are all missing or empty is appended
    at once with an empty [audio] list: nothing is fetched, decoded or
    written. *)
Theorem json_entry_without_links (a : args) (idx : Z) (r0 : row) (w : world)
    (Hl : forall i, In i [1; 2; 3] ->
          dict_get (key "link" i) r0 = None \/ dict_get (key "link" i) r0 = Some ""%string) :
  json_entry a idx r0 w = (Ok tt, add_event (EAppendRow (json_output_row idx r0) []) w).
Proof.
  assert (Hr : forall i, In i [1; 2; 3] ->
            match dict_get (key "link" i) (json_assign_id idx r0) with
            | Some l => String.eqb l "" = true
            | None => True
            end).
  { intros i Hi. unfold json_assign_id. rewrite dict_get_set_ne.
    - destruct (Hl i Hi) as [-> | ->]; reflexivity.
    - destruct Hi as [<-|[<-|[<-|[]]]]; discriminate. }
  unfold json_entry, bind at 1.
  assert (E : json_refs a (json_assign_id idx r0) [1; 2; 3] [] w = (Ok [], w)).
  { cbn [json_refs].
    pose proof (Hr 1 ltac:(cbn; tauto)) as H1. pose proof (Hr 2 ltac:(cbn; tauto)) as H2.
    pose proof (Hr 3 ltac:(cbn; tauto)) as H3.
    destruct (dict_get (key "link" 1) _) as [l1|]; [rewrite H1|];
    (destruct (dict_get (key "link" 2) _) as [l2|]; [rewrite H2|]);
    (destruct (dict_get (key "link" 3) _) as [l3|]; [rewrite H3|]); reflexivity. }
  rewrite E. reflexivity.
Qed.

Lemma json_entry_without_links_witness :
  json_entry json_args 7 [("title", "x"); ("link_1", "")]%string clip_world =
    (Ok tt, add_event (EAppendRow (json_output_row 7 [("title", "x"); ("link_1", "")]%string) []) clip_world).
Proof.
  apply json_entry_without_links.
  intros i [<-|[<-|[<-|[]]]]; [right|left|left]; reflexivity.
Defined.

Lemma mapM_M_ok {A B} (f : A -> M B) (P : B -> Prop)
    (Hf : forall x w v w', f x w = (Ok v, w') -> P v) :
  forall l w ys w', mapM_M f l w = (Ok ys, w') -> length ys = length l /\ Forall P ys.
Proof.
  induction l as [|x l IH]; intros w ys w' H; cbn [mapM_M] in H.
  - unfold ret in H. injection H as <- _. split; [reflexivity|constructor].
  - apply bind_ok_inv in H as [y [w1 [Hy H]]].
    apply bind_ok_inv in H as [ys' [w2 [Hys H]]].
    unfold ret in H. injection H as <- _.
    destruct (IH _ _ _ Hys) as [Hl HF].
    split; [cbn; rewrite Hl; reflexivity|constructor; [eapply Hf; exact Hy|exact HF]].
Qed.

Lemma csv_download_not_str (r : csv_row) (a : args) (w w' : world) (v : pyobj) :
  csv_process_audio_download r a w = (Ok v, w') -> forall p, v <> PyStr p.
Proof.
  unfold csv_process_audio_download. intros H p.
  apply bind_ok_inv in H as [link [w1 [_ H]]].
  destruct (classify_csv link) as [[]|].
  - apply bind_ok_inv in H as [uid [w2 [_ H]]].
    apply bind_ok_inv in H as [res [w3 [_ H]]].
    unfold ret in H. injection H as <- _. discriminate.
  - apply bind_ok_inv in H as [uid [w2 [_ H]]].
    apply bind_ok_inv in H as [res [w3 [_ H]]].
    unfold ret in H. injection H as <- _. discriminate.
  - apply bind_ok_inv in H as [u [w2 [_ H]]]. unfold ret in H. injection H as <- _. discriminate.
  - apply bind_ok_inv in H as [u [w2 [_ H]]]. unfold ret in H. injection H as <- _. discriminate.
Qed.

Lemma ms_column_length (cols : list string) (c : string) (rows : list csv_row) (w w' : world)
    (v : list (option Z)) :
  ms_column cols c rows w = (Ok v, w') -> length v = length rows.
Proof.
  unfold ms_column. destruct (existsb (String.eqb c) cols).
  - intros H. eapply (mapM_M_ok _ (fun _ => True)) in H as [Hl _]; [exact Hl|].
    intros; exact I.
  - unfold ret. intros H. injection H as <- _. apply length_map.
Qed.

(** [main] of process_audio.py never completes on a non-empty frame:
    every [audio_path] is a tuple or [None], [crop_audio] raises on the
    first row, and [to_csv] is never reached. *)
Theorem csv_main_never_completes (a : args) (cols : list string) (rows0 : list csv_row) (w : world)
    (Hne : rows0 <> []) :
  fst (csv_main a cols rows0 w) <> Ok tt.
Proof.
  destruct (csv_main a cols rows0 w) as [[u|e] w'] eqn:E; cbn [fst]; [|discriminate].
  exfalso. unfold csv_main in E.
  apply bind_ok_inv in E as [u1 [w1 [_ E]]].
  apply bind_ok_inv in E as [ids [w2 [Hids E]]].
  rewrite fresh_ids_run in Hids. injection Hids as Hids _.
  apply bind_ok_inv in E as [paths [w3 [Hp E]]].
  apply bind_ok_inv in E as [starts [w4 [Hs E]]].
  apply bind_ok_inv in E as [ends [w5 [He E]]].
  apply bind_ok_inv in E as [crops [w6 [Hc _]]].
  set (rows := zip_with (fun r u => csv_set "unique_id" (CStr u) r) rows0 ids) in *.
  assert (Hrows : length rows = length rows0).
  { subst rows. rewrite length_zip_with, <- Hids, length_map, length_seq. lia. }
  destruct (mapM_M_ok (fun r => csv_process_audio_download r a) (fun v => forall p, v <> PyStr p)
              (fun x w0 v w0' H => csv_download_not_str x a w0 w0' v H) _ _ _ _ Hp) as [Hpl HpF].
  apply ms_column_length in Hs. apply ms_column_length in He.
  assert (Hlen : (1 <= length rows0)%nat) by (destruct rows0; [contradiction|cbn; lia]).
  destruct paths as [|p paths]; [cbn in Hpl; lia|].
  destruct starts as [|s starts]; [cbn in Hs; lia|].
  destruct ends as [|e ends]; [cbn in He; lia|].
  inversion HpF as [|? ? Hp0 _]; subst.
  unfold csv_crop_all in Hc. cbn [combine mapM_M] in Hc.
  apply bind_ok_inv in Hc as [c [w7 [Hc _]]].
  rewrite crop_audio_not_str in Hc by exact Hp0. discriminate.
Qed.

Lemma csv_main_never_completes_witness :
  fst (csv_main json_args ["link"]%string [[("link", CStr "http://example.org/a.mp3")]]%string drive_world)
    <> Ok tt.
Proof. apply csv_main_never_completes. discriminate. Defined.

Lemma str_app_cancel_l (p a b : string) : (p ++ a)%string = (p ++ b)%string -> a = b.
Proof.
  induction p as [|c p IH]; [trivial|].
  intros H. apply IH. change (String c (p ++ a) = String c (p ++ b))%string in H. congruence.
Qed.

Lemma str_int_no_dot (z : Z) : ~ In "."%char (list_ascii_of_string (Py.str_int z)).
Proof.
  assert (Hd : forall d, ~ In "."%char (list_ascii_of_string (Py.uint_to_string d))).
  { induction d; cbn; [tauto| ..]; intros [H|H]; try discriminate H; exact (IHd H). }
  unfold Py.str_int. destruct (Z.to_int z); [apply Hd|].
  cbn. intros [H|H]; [discriminate H|exact (Hd _ H)].
Qed.

Lemma dot_cancel (a b f g : string) :
  ~ In "."%char (list_ascii_of_string a) -> ~ In "."%char (list_ascii_of_string b) ->
  (a ++ String "." f)%string = (b ++ String "." g)%string -> a = b.
Proof.
  revert b. induction a as [|x a IH]; intros [|y b] Ha Hb H.
  - reflexivity.
  - cbn in H. injection H as <- _. exfalso. apply Hb. left. reflexivity.
  - cbn in H. injection H as -> _. exfalso. apply Ha. left. reflexivity.
  - change (String x (a ++ String "." f) = String y (b ++ String "." g))%string in H.
    injection H as <- H. f_equal. apply IH; [intros Hx; apply Ha; right; exact Hx|
                                         intros Hx; apply Hb; right; exact Hx|exact H].
Qed.

Lemma prefix_slash_same (oid s t : string) (c1 c2 : ascii) :
  c1 <> "/"%char -> c2 <> "/"%char ->
  String.prefix "/" (oid ++ String c1 s) = String.prefix "/" (oid ++ String c2 t).
Proof.
  intros H1 H2.
  assert (He : forall x, String.prefix "" x = true) by (intros []; reflexivity).
  destruct oid as [|c oid].
  - change (String.prefix "/" (String c1 s) = String.prefix "/" (String c2 t)).
    cbn [String.prefix]. destruct (ascii_dec "/" c1) as [E|]; [congruence|].
    destruct (ascii_dec "/" c2) as [E|]; [congruence|]. reflexivity.
  - change (String.prefix "/" (String c (oid ++ String c1 s)) = String.prefix "/" (String c (oid ++ String c2 t))).
    cbn [String.prefix]. destruct (ascii_dec "/" c); rewrite ?He; reflexivity.
Qed.

Lemma join_cancel (d x y : string) :
  String.prefix "/" x = String.prefix "/" y -> Py.path_join d x = Py.path_join d y -> x = y.
Proof.
  unfold Py.path_join. intros Hp. rewrite Hp.
  destruct (String.prefix "/" y); [trivial|].
  destruct (String.eqb d ""); [trivial|].
  destruct (String.eqb _ "/"); intros H; apply str_app_cancel_l in H; [exact H|].
  change (String "/" x = String "/" y) in H. congruence.
Qed.

Lemma dest_path_indexed (dir oid fmt : string) (i : Z) :
  i <> 0 -> dest_path dir oid (Some i) fmt =
    Py.path_join dir (oid ++ String "_" (Py.str_int i ++ String "." fmt)).
Proof.
  intros Hi. unfold dest_path, stem, idx_truthy.
  destruct (Z.eqb_spec i 0); [contradiction|]. cbn [negb].
  rewrite <- !str_app_assoc. reflexivity.
Qed.

(** For one output id, distinct non-zero audio indices give distinct
    destination files, each distinct from the un-indexed name, which
    index 0 shares. *)
Theorem dest_path_distinct (dir oid fmt : string) (i j : Z) (Hi : i <> 0) (Hj : j <> 0) :
  (dest_path dir oid (Some i) fmt = dest_path dir oid (Some j) fmt -> i = j) /\
  dest_path dir oid (Some i) fmt <> dest_path dir oid None fmt /\
  dest_path dir oid (Some 0) fmt = dest_path dir oid None fmt.
Proof.
  split; [|split].
  - rewrite !dest_path_indexed by assumption. intros H.
    apply join_cancel in H; [|apply prefix_slash_same; discriminate].
    apply str_app_cancel_l in H. injection H as H.
    apply dot_cancel in H; [|apply str_int_no_dot|apply str_int_no_dot].
    pose proof (int_of_str_int i) as Ei. rewrite H, int_of_str_int in Ei. congruence.
  - rewrite dest_path_indexed by assumption. unfold dest_path at 1. cbn [stem].
    change (oid ++ "." ++ fmt)%string with (oid ++ String "." fmt)%string.
    intros H. apply join_cancel in H; [|apply prefix_slash_same; discriminate].
    apply str_app_cancel_l in H. discriminate H.
  - reflexivity.
Qed.

Lemma dest_path_distinct_witness :
  dest_path "data/audio" "00000000" (Some 1) "mp3" <> dest_path "data/audio" "00000000" (Some 2) "mp3".
Proof.
  intros H. destruct (dest_path_distinct "data/audio" "00000000" "mp3" 1 2) as [Hij _];
    [discriminate|discriminate|].
  apply Hij in H. discriminate H.
Defined.

Lemma string_of_list_app (l1 l2 : list ascii) :
  string_of_list_ascii (l1 ++ l2) = (string_of_list_ascii l1 ++ string_of_list_ascii l2)%string.
Proof.
  induction l1 as [|c l1 IH]; [reflexivity|].
  change (String c (string_of_list_ascii (l1 ++ l2)) = String c (string_of_list_ascii l1 ++ string_of_list_ascii l2))%string.
  rewrite IH. reflexivity.
Qed.

Lemma split_l_head (c : ascii) (l : list ascii) :
  exists p ps, Py.split_l c l = p :: ps /\ ~ In c p /\
    exists rest, l = p ++ rest /\ (rest = [] \/ exists t, rest = c :: t).
Proof.
  induction l as [|x r [p [ps [E [Hp [rest [Hr Hrest]]]]]]].
  - exists [], []. split; [reflexivity|]. split; [tauto|]. exists []. split; [reflexivity|left; reflexivity].
  - cbn [Py.split_l]. rewrite E.
    destruct (Ascii.eqb_spec x c) as [->|Hx].
    + exists [], (p :: ps). split; [reflexivity|]. split; [tauto|].
      exists (c :: r). split; [reflexivity|right; eauto].
    + exists (x :: p), ps. split; [reflexivity|]. split.
      * intros [H|H]; [congruence|contradiction].
      * exists rest. split; [cbn; rewrite Hr; reflexivity|exact Hrest].
Qed.

(** [link.split("&")[0]] is the longest prefix of the link without '&':
    what follows it is empty or starts with '&'. *)
Theorem strip_params_prefix (url : string) :
  ~ In "&"%char (list_ascii_of_string (strip_params url)) /\
  exists rest, url = (strip_params url ++ rest)%string /\ (rest = ""%string \/ exists t, rest = String "&" t).
Proof.
  unfold strip_params, Py.split.
  destruct (split_l_head "&" (list_ascii_of_string url)) as [p [ps [E [Hp [rest [Hr Hrest]]]]]].
  rewrite E. cbn [map]. rewrite list_ascii_of_string_of_list_ascii. split; [exact Hp|].
  exists (string_of_list_ascii rest). split.
  - rewrite <- string_of_list_app, <- Hr, string_of_list_ascii_of_string. reflexivity.
  - destruct Hrest as [->|[t ->]]; [left; reflexivity|right; eexists; reflexivity].
Qed.

Lemma list_zeros (k : nat) :
  list_ascii_of_string (String.concat "" (repeat "0"%string k)) = repeat "0"%char k.
Proof.
  induction k as [|k IH]; [reflexivity|].
  destruct k as [|k]; [reflexivity|].
  change (String.concat "" (repeat "0"%string (S (S k))))
    with (String "0" (String.concat "" (repeat "0"%string (S k)))).
  cbn [list_ascii_of_string]. rewrite IH. reflexivity.
Qed.

Lemma digits_zeros (k : nat) (l : list ascii) :
  Py.digits_val true 0 (repeat "0"%char k ++ l) = Py.digits_val true 0 l.
Proof. induction k as [|k IH]; [reflexivity|]. exact IH. Qed.

Lemma nonneg_digits (z : Z) :
  0 <= z -> exists d, Py.str_int z = Py.uint_to_string d /\ d <> Decimal.Nil /\ uint_horner 0 d = z.
Proof.
  intros Hz. destruct z as [|p|p]; [|..|lia].
  - exists (Decimal.D0 Decimal.Nil). split; [reflexivity|]. split; [discriminate|reflexivity].
  - exists (Pos.to_uint p). split; [reflexivity|].
    split; [apply DecimalPos.Unsigned.to_uint_nonnil|apply uint_value].
Qed.

Lemma int_of_digit_list (l : list ascii) :
  Forall (fun c => Py.is_space c = false /\ c <> "-"%char /\ c <> "+"%char) l ->
  Py.int_of_string (string_of_list_ascii l) = Py.digits_val false 0 l.
Proof.
  intros H. unfold Py.int_of_string. rewrite list_ascii_of_string_of_list_ascii.
  rewrite strip_l_id by (eapply Forall_impl; [exact H|]; intros c [Hc _]; exact Hc).
  destruct l as [|c r]; [reflexivity|].
  inversion H as [|? ? [_ [Hm Hp]] _]; subst.
  destruct (Ascii.eqb_spec c "-"); [contradiction|].
  destruct (Ascii.eqb_spec c "+"); [contradiction|]. reflexivity.
Qed.

(** For [idx >= 0], [int(f"{idx:0>8d}") == idx]. *)
Theorem pad8_round_trip (idx : Z) (Hidx : 0 <= idx) :
  Py.int_of_string (Py.pad8 idx) = Some idx.
Proof.
  destruct (nonneg_digits idx Hidx) as [d [Hs [Hn Hv]]].
  unfold Py.pad8. rewrite Hs.
  set (k := (8 - String.length (Py.uint_to_string d))%nat).
  rewrite <- (string_of_list_ascii_of_string (_ ++ _)), list_ascii_app, list_zeros.
  rewrite int_of_digit_list.
  - rewrite <- Hv. destruct k as [|k]; cbn [repeat app].
    + destruct d; [congruence| ..]; cbn; apply digits_uint.
    + cbn. change (Py.digit_val "0") with (Some 0). cbv iota. change (10 * 0 + 0) with 0. rewrite digits_zeros. apply digits_uint.
  - apply Forall_app. split.
    + apply List.Forall_forall. intros c Hc. apply repeat_spec in Hc. subst c.
      repeat split; discriminate.
    + apply digits_all.
Qed.

Lemma pad8_round_trip_witness : Py.int_of_string (Py.pad8 42) = Some 42.
Proof. apply pad8_round_trip. lia. Defined.

(** When gdown delivers bytes pydub cannot decode, the decoding error
    escapes [download_from_google_drive] (the decoding is outside the
    retry loop's [try]); the downloaded file stays under tmp/ and the
    destination is not written. *)
Theorem gdrive_undecodable_download (w : world) (url fmt dir oid fid name : string) (idx : option Z)
    (k : nat)
    (Hdir : dir <> ""%string) (Hoid : oid <> ""%string)
    (Hfid : Py.index (Py.split "/" url) (-2) = Some fid)
    (Hnf : w_files w !! dest_path dir oid idx fmt = None)
    (Hnd : dest_path dir oid idx fmt ∉ {["tmp"%string]} ∪ ({[dir]} ∪ w_dirs w))
    (Hk : (k < 5)%nat)
    (Hfail : forall i, (i < k)%nat -> w_gdown w fid i = None)
    (Hok : w_gdown w fid k = Some (name, Junk)) :
  exists w', download_from_google_drive url fmt dir (Some oid) idx w = (Exc DecodeError, w') /\
    w_files w' = <[("tmp/" ++ name)%string := Junk]> (w_files w).
Proof.
  unfold download_from_google_drive, bind at 1.
  rewrite (makedirs_ok _ _ Hdir). cbv beta iota.
  unfold bind at 1. rewrite (resolve_given _ _ Hoid). cbv beta iota.
  unfold bind at 1. unfold lift_opt at 1. rewrite Hfid. unfold ret at 1. cbv beta iota zeta.
  unfold bind at 1. rewrite (makedirs_ok "tmp"). 2: discriminate. cbv beta iota.
  unfold bind at 1. rewrite exists_false; [| exact Hnf | exact Hnd]. cbv beta iota.
  destruct (gd_loop_success fid name Junk k k
              (set_dirs ({["tmp"%string]} ∪ w_dirs (set_dirs ({[dir]} ∪ w_dirs w) w))
                 (set_dirs ({[dir]} ∪ w_dirs w) w))) as [w1 [E [Hf _]]].
  - lia.
  - exact Hk.
  - intros i Hi. apply Hfail. lia.
  - exact Hok.
  - rewrite Nat.sub_diag in E. change (5 - 0)%nat with 5%nat in E. unfold bind at 1. rewrite E. cbv beta iota.
    unfold from_file, bind, gets. rewrite Hf, lookup_insert_eq. cbn.
    eexists. split; [reflexivity|]. exact Hf.
Qed.

Lemma gdrive_undecodable_download_witness :
  fst (download_from_google_drive "https://drive.google.com/file/d/J/view" "mp3" "data/audio"
         (Some "00000000") (Some 1) flaky_world) = Exc DecodeError.
Proof.
  destruct (gdrive_undecodable_download flaky_world "https://drive.google.com/file/d/J/view" "mp3"
              "data/audio" "00000000" "J" "J.bin" (Some 1) 0) as [w' [E _]].
  - discriminate.
  - discriminate.
  - reflexivity.
  - reflexivity.
  - vm_compute. intros Hin. set_solver.
  - lia.
  - intros i Hi. lia.
  - reflexivity.
  - rewrite E. reflexivity.
Defined.

(** Without an [output_id] ([None] or empty), [download_from_curl] names
    the file after the first 8 characters, upper-cased, of a fresh
    [uuid4().hex], and draws one uuid. *)
Theorem curl_fresh_id_without_output_id (w : world) (url fmt dir : string) (oid : option string)
    (idx : option Z)
    (Hdir : dir <> ""%string) (Hoid : oid = None \/ oid = Some ""%string)
    (Hnf : w_files w !! dest_path dir (Py.upper (Py.take 8 (w_uuid w (w_uuid_ctr w)))) idx fmt = None)
    (Hnd : dest_path dir (Py.upper (Py.take 8 (w_uuid w (w_uuid_ctr w)))) idx fmt ∉ {[dir]} ∪ w_dirs w) :
  exists w', download_from_curl url fmt dir oid idx w =
    (Ok (dest_path dir (Py.upper (Py.take 8 (w_uuid w (w_uuid_ctr w)))) idx fmt, true), w') /\
    w_uuid_ctr w' = S (w_uuid_ctr w).
Proof.
  assert (Hr : resolve_output_id oid (set_dirs ({[dir]} ∪ w_dirs w) w) =
               (Ok (Py.upper (Py.take 8 (w_uuid w (w_uuid_ctr w)))),
                set_uuid_ctr (S (w_uuid_ctr w)) (set_dirs ({[dir]} ∪ w_dirs w) w)))
    by (destruct Hoid as [->| ->]; reflexivity).
  unfold download_from_curl, bind at 1.
  rewrite (makedirs_ok _ _ Hdir). cbv beta iota.
  unfold bind at 1. rewrite Hr. cbv beta iota zeta.
  unfold bind at 1. rewrite exists_false; [| exact Hnf | exact Hnd]. cbv beta iota.
  unfold try_except, os_system_curl, bind, log, modify, gets, ret, write_file.
  cbn. destruct (w_curl w url) as [st [b|]]; cbn; eexists; split; reflexivity.
Qed.

Lemma curl_fresh_id_without_output_id_witness :
  fst (download_from_curl "http://unreachable.invalid/clip.mp3" "mp3" "data/audio" None (Some 1)
         offline_world) = Ok ("data/audio/3F2A9C1E_1.mp3"%string, true).
Proof.
  destruct (curl_fresh_id_without_output_id offline_world "http://unreachable.invalid/clip.mp3" "mp3"
              "data/audio" None (Some 1)) as [w' [E _]].
  - discriminate.
  - left. reflexivity.
  - reflexivity.
  - vm_compute. intros Hin. set_solver.
  - rewrite E. vm_compute. reflexivity.
Defined.
